(** * The request engine of aah (engine.go): model and verification

    The engine accepts one inbound HTTP request, takes a Controller and a
    Request view from their pools, runs the middleware chain under a
    recovery guard, writes the reply on the wire and gives the pooled
    objects back.  Every method of [engine.go] is embedded below as a
    function of a small state-and-panic monad over the objects the method
    touches.  Code that [engine.go] calls but that lives in other files
    (the reply builder, the Controller, the routing target, the HTTP
    transport) is either modelled from its use and from the specification,
    or taken as a field of the record [Env] of collaborators. *)

From Stdlib Require Import ZArith String Ascii List Bool.
From stdpp Require Import gmap strings list.

Local Open Scope string_scope.
Local Open Scope list_scope.

(** ** Go values *)

(** The value carried by a panic (a non-nil [interface{}]), by its message. *)
Definition PanicValue : Type := string.

Definition nilDereference : PanicValue :=
  "runtime error: invalid memory address or nil pointer dereference".
Definition indexOutOfRange : PanicValue := "runtime error: index out of range".

(** The line feed of ["\n"]. *)
Definition LF : string := String (ascii_of_nat 10) "".

(** A [bytes.Buffer] is the bytes written to it and not yet read. *)
Definition Buffer : Type := string.

(** During one request the engine works on one object of each pooled or
    wrapped type, so a pointer to such an object is either nil ([None]) or
    the address of that one object. *)
Inductive ptr (A : Type) : Type := addr.
Arguments addr {A}.

(** The error values the engine compares against. *)
Inductive error : Type :=
  | errFileNotFound
  | errTargetNotFound
  | errors_New (msg : string).

Definition is_errTargetNotFound (err : option error) : bool :=
  match err with
  | Some errTargetNotFound => true
  | _ => false
  end.

(** ** net/url and net/http *)

Module url.
Record URL : Type := { Path : string; RawQuery : string }.
Definition set_Path (p : string) (u : URL) : URL :=
    {| Path := p; RawQuery := RawQuery u |}.
End url.

Module textproto.
(** [validHeaderFieldByte]: the bytes of a token, that is letters, digits
    and the marks [!#$%&'*+-.^_`|~]. *)
Definition isDigit (c : ascii) : bool :=
    (48 <=? nat_of_ascii c)%nat && (nat_of_ascii c <=? 57)%nat.
Definition isUpper (c : ascii) : bool :=
    (65 <=? nat_of_ascii c)%nat && (nat_of_ascii c <=? 90)%nat.
Definition isLower (c : ascii) : bool :=
    (97 <=? nat_of_ascii c)%nat && (nat_of_ascii c <=? 122)%nat.
Definition isMark (c : ascii) : bool :=
    existsb (Ascii.eqb c) (list_ascii_of_string "!#$%&'*+-.^_`|~").
Definition validHeaderFieldByte (c : ascii) : bool :=
    isDigit c || isUpper c || isLower c || isMark c.

Fixpoint validKey (s : string) : bool :=
    match s with
    | EmptyString => true
    | String c rest => validHeaderFieldByte c && validKey rest
    end.

(** The loop of [canonicalMIMEHeaderKey]: the first letter and every letter
    after a dash in upper case, the other letters in lower case; [upper]
    says whether the next byte starts a word. *)
Fixpoint canonical (upper : bool) (s : string) : string :=
    match s with
    | EmptyString => EmptyString
    | String c rest =>
        let c :=
          if upper && isLower c then ascii_of_nat (nat_of_ascii c - 32)
          else if negb upper && isUpper c then ascii_of_nat (nat_of_ascii c + 32)
          else c in
        String c (canonical (Ascii.eqb c "-") rest)
    end.

(** [CanonicalMIMEHeaderKey]: a key with a byte that is not a token byte
    is returned unchanged. *)
Definition CanonicalMIMEHeaderKey (s : string) : string :=
    if validKey s then canonical true s else s.
End textproto.

Module http.
Definition StatusOK : Z := 200.
Definition StatusMovedPermanently : Z := 301.
Definition StatusTemporaryRedirect : Z := 307.
Definition StatusNotFound : Z := 404.
Definition StatusInternalServerError : Z := 500.

Record Request : Type := { Method : string; URL : url.URL }.

Definition set_URL (u : url.URL) (r : Request) : Request :=
    {| Method := Method r; URL := u |}.

(** What a handler does with an [http.ResponseWriter]: it edits the header
    map, and it issues calls that put bytes on the wire.  [Redirect] stands
    for [http.Redirect(w, req, urlStr, code)], which answers with the
    Location header, the status and a short body. *)
Inductive call : Type :=
    | WriteHeader (code : Z)
    | Write (body : string)
    | Redirect (urlStr : string) (code : Z).

Record ResponseWriter : Type :=
    { Header : gmap string (list string); calls : list call }.

(** [Header.Add] and [Header.Set]: both work on the canonical form of the
    key ([textproto.MIMEHeader]). *)
Definition Add (key value : string) (h : gmap string (list string))
    : gmap string (list string) :=
    let key := textproto.CanonicalMIMEHeaderKey key in
    <[key := default [] (h !! key) ++ [value]]> h.
Definition Set_ (key value : string) (h : gmap string (list string))
    : gmap string (list string) :=
    <[textproto.CanonicalMIMEHeaderKey key := [value]]> h.

Definition editHeader (f : gmap string (list string) -> gmap string (list string))
      (w : ResponseWriter) : ResponseWriter :=
    {| Header := f (Header w); calls := calls w |}.
Definition issue (k : call) (w : ResponseWriter) : ResponseWriter :=
    {| Header := Header w; calls := calls w ++ [k] |}.
End http.

(** ** Package ahttp *)

Module ahttp.
Definition MethodGet : string := "GET".
Definition HeaderContentType : string := "Content-Type".

Inductive Locale : Type := NewLocale (value : string).

Inductive ContentType : Type :=
    | ContentTypeHTML
    | ContentTypeJSON
    | ContentTypeXML
    | ContentTypePlainText
    | ContentTypeOctetStream.

Record Request : Type :=
    { Method : string;
      Path : string;
      Locale_ : option Locale;
      Raw : option http.Request }.

Definition set_Locale (l : option Locale) (r : Request) : Request :=
    {| Method := Method r; Path := Path r; Locale_ := l; Raw := Raw r |}.
Definition set_Raw (raw : option http.Request) (r : Request) : Request :=
    {| Method := Method r; Path := Path r; Locale_ := Locale_ r; Raw := raw |}.

(** [&ahttp.Request{}], the object the pool's factory constructs. *)
Definition zero : Request :=
    {| Method := ""; Path := ""; Locale_ := None; Raw := None |}.

(** Modelled from the spec: [Request.Reset] is not in the source tree.
    Reset clears the parsed fields so stale values cannot bleed into the
    next reuse: the view goes back to its pristine baseline. *)
Definition Reset (r : Request) : Request := zero.
End ahttp.

(** ** Packages render and reply *)

Module render.
(** Modelled from the spec: package render is not in the source tree.  The
    body-rendering strategy is a polymorphic render step that serializes
    into a byte buffer and can fail.  One run of a renderer: the bytes it
    wrote into the buffer, then the error it returned (or nil), or the value
    it panicked with ([PanicsNil] for a nil value). *)
Inductive outcome : Type :=
    | Returns (written : string) (err : option string)
    | Panics (written : string) (v : PanicValue)
    | PanicsNil (written : string).

(** Modelled from the spec: the [Render] interface is not in the source
    tree.  It is the plain-text renderer that [Reply.Text] installs, or any
    other implementation, given by what its [Render] call does. *)
Inductive Render : Type :=
    | Text (format : string) (values : list string)
    | Other (run : outcome).

(** [fmt.Sprintf] for the verb the engine uses, [%s], on string values. *)
Fixpoint Sprintf (format : string) (values : list string) : string :=
    match format with
    | String "%" (String "s" rest) =>
        match values with
        | v :: vs => v +:+ Sprintf rest vs
        | [] => "%!s(MISSING)" +:+ Sprintf rest []
        end
    | String "%" (String "%" rest) => String "%" (Sprintf rest values)
    | String a rest => String a (Sprintf rest values)
    | EmptyString => EmptyString
    end.

(** Modelled from the spec: [Render(buf)] of the two kinds of renderer; the
    text renderer writes the formatted text and does not fail. *)
Definition run (rdr : Render) : outcome :=
    match rdr with
    | Text format values => Returns (Sprintf format values) None
    | Other o => o
    end.
End render.

Module reply.
(** Modelled from the spec: the reply builder is not in the source tree.
    It accumulates the status code (optional; unset means that the
    default 200 is used), the header mapping, the content type and the
    body-rendering strategy. *)
Record Reply : Type :=
    { Code : option Z;
      ContType : string;
      Hdr : gmap string (list string);
      Rdr : option render.Render }.

(** Modelled from the spec: [reply.NewReply()], a reply with nothing set. *)
Definition NewReply : Reply :=
    {| Code := None; ContType := ""; Hdr := ∅; Rdr := None |}.

(** Modelled from the spec: [Reply.Status]; later writes to the status
    overwrite earlier ones. *)
Definition Status (code : Z) (r : Reply) : Reply :=
    {| Code := Some code; ContType := ContType r; Hdr := Hdr r; Rdr := Rdr r |}.

(** Modelled from the spec: [Reply.NotFound], the status 404. *)
Definition NotFound (r : Reply) : Reply := Status http.StatusNotFound r.

(** Modelled from the spec: [Reply.Text], a plain-text body; [plain] is
    [ahttp.ContentTypePlainText.Raw()]. *)
Definition Text (plain : string) (format : string) (values : list string)
      (r : Reply) : Reply :=
    {| Code := Code r; ContType := plain; Hdr := Hdr r;
       Rdr := Some (render.Text format values) |}.

(** Modelled from the spec: [Reply.IsStatusSet], whether a status was
    assigned. *)
Definition IsStatusSet (r : Reply) : bool :=
    match Code r with Some _ => true | None => false end.

(** The int read by [reply.Code]; Go's zero value when no status is set. *)
Definition Code_int (r : Reply) : Z := default 0%Z (Code r).
End reply.

(** ** Package router *)

Module router.
Record Route : Type := { Controller : string; Action : string }.
Record Domain : Type := { NotFoundRoute : option Route }.
End router.

(** ** Package pool *)

Module pool.
(** Modelled from the spec: package pool is not in the source tree.
    A bounded reservoir (a buffered channel) and the factory used when
    the reservoir is empty. *)
Record Pool (A : Type) : Type :=
    { size : nat; items : list A; newFn : A }.
Arguments size {A}.
Arguments items {A}.
Arguments newFn {A}.

(** Modelled from the spec: [pool.NewPool(size, factory)], an empty
    reservoir. *)
Definition NewPool {A} (n : nat) (f : A) : Pool A :=
    {| size := n; items := []; newFn := f |}.

(** Modelled from the spec: [Pool.Get] returns an instance reused from the
    reservoir or freshly constructed by the factory. *)
Definition Get {A} (p : Pool A) : A * Pool A :=
    match items p with
    | x :: rest => (x, {| size := size p; items := rest; newFn := newFn p |})
    | [] => (newFn p, p)
    end.

(** Modelled from the spec: [Pool.Put] returns the instance to the
    reservoir; a full reservoir drops the object. *)
Definition Put {A} (x : A) (p : Pool A) : Pool A :=
    if (length (items p) <? size p)%nat
    then {| size := size p; items := items p ++ [x]; newFn := newFn p |}
    else p.
End pool.

(** ** The Controller and the objects of one request *)

(** [c.action]: the method a route's action resolves to. *)
Record MethodInfo : Type := { Name : string }.

(** [c.target] holds the controller instance as an [interface{}]; the model
    keeps its identity, and reflection on it is a collaborator ([Env]). *)
Definition Target : Type := string.

Record Controller : Type :=
  { Req : option (ptr ahttp.Request);
    Res : option (ptr http.ResponseWriter);
    reply : option reply.Reply;
    target : option Target;
    action : option MethodInfo;
    controller : string }.

(** [&Controller{}], the object the pool's factory constructs. *)
Definition zeroController : Controller :=
  {| Req := None; Res := None; reply := None; target := None;
     action := None; controller := "" |}.

(** Modelled from the spec: [Controller.Reset] is not in the source tree.
    The Context is reset to a pristine baseline before it goes back to its
    pool, so that no field leaks between unrelated requests. *)
Definition Controller_Reset (c : Controller) : Controller := zeroController.

(** [bytes.Buffer.Reset]: the buffer becomes empty. *)
Definition Buffer_Reset (b : Buffer) : Buffer := "".

Definition set_Req (p : option (ptr ahttp.Request)) (c : Controller) : Controller :=
  {| Req := p; Res := Res c; reply := reply c; target := target c;
     action := action c; controller := controller c |}.
Definition set_Res (p : option (ptr http.ResponseWriter)) (c : Controller) : Controller :=
  {| Req := Req c; Res := p; reply := reply c; target := target c;
     action := action c; controller := controller c |}.
Definition set_reply (rp : option reply.Reply) (c : Controller) : Controller :=
  {| Req := Req c; Res := Res c; reply := rp; target := target c;
     action := action c; controller := controller c |}.

(** The objects one request works on: the Controller [c], the pooled
    Request view [r] that [c.Req] points to, and the transport's writer [w]
    that [c.Res] wraps. *)
Record Heap : Type :=
  { h_c : Controller; h_r : ahttp.Request; h_w : http.ResponseWriter }.

Definition set_c (c : Controller) (h : Heap) : Heap :=
  {| h_c := c; h_r := h_r h; h_w := h_w h |}.
Definition set_r (r : ahttp.Request) (h : Heap) : Heap :=
  {| h_c := h_c h; h_r := r; h_w := h_w h |}.
Definition set_w (w : http.ResponseWriter) (h : Heap) : Heap :=
  {| h_c := h_c h; h_r := h_r h; h_w := w |}.

(** ** Results, panics and user code *)

(** How a call ends.  [Panic v] is a panic with the non-nil value [v];
    [PanicNil] is [panic(nil)]: it unwinds like any other panic, but
    [recover()] returns nil for it (Go before 1.21, and later toolchains for
    a program that does not ask for the newer language version). *)
Inductive Result (A : Type) : Type :=
  | Return (a : A)
  | Panic (v : PanicValue)
  | PanicNil.
Arguments Return {A} a.
Arguments Panic {A} v.
Arguments PanicNil {A}.

(** Code of the application (a middleware stage, an action): it works on the
    request's objects and returns or panics. *)
Definition UserCode : Type := Heap -> Result unit * Heap.

(** Reflection: a method has parameter types and a body.  [ins] are the
    types of its parameters, the final variadic one left out; [variadic] is
    the element type [T] of a final parameter [...T], when the method has
    one. *)
Inductive GoType : Type := TBool | TEmptyInterface | TOther (name : string).
Inductive GoValue : Type := VBool (b : bool).

Record Method : Type :=
  { ins : list GoType;
    variadic : option GoType;
    Func : list GoValue -> UserCode }.

Definition assignable (v : GoValue) (t : GoType) : bool :=
  match v, t with
  | VBool _, TBool => true
  | VBool _, TEmptyInterface => true
  | VBool _, TOther _ => false
  end.

Fixpoint allAssignable (args : list GoValue) (ts : list GoType) : bool :=
  match args, ts with
  | [], [] => true
  | v :: args', t :: ts' => assignable v t && allAssignable args' ts'
  | _, _ => false
  end.

(** [reflect.Value.Call]: it panics when the arguments do not fit the
    parameters.  A variadic method takes any number of arguments after the
    fixed ones, each assignable to the element type. *)
Definition Call (m : Method) (args : list GoValue) : UserCode :=
  fun h =>
    let n := length (ins m) in
    if (length args <? n)%nat
    then (Panic "reflect: Call with too few input arguments", h)
    else
      match variadic m with
      | None =>
          if (n <? length args)%nat
          then (Panic "reflect: Call with too many input arguments", h)
          else if allAssignable args (ins m)
          then Func m args h
          else (Panic "reflect: Call using bool as another type", h)
      | Some elem =>
          if allAssignable (take n args) (ins m)
          then
            if forallb (fun v => assignable v elem) (drop n args)
            then Func m args h
            else (Panic "reflect: cannot use bool as another type in Call", h)
          else (Panic "reflect: Call using bool as another type", h)
      end.

(** ** The collaborators of the engine *)

Record Env : Type :=
  { (** [AppProfile()] and [AppConfig()] *)
    appProfile : string;
    appConfig : gmap string string;
    (** the configured middleware chain *)
    mwChain : list UserCode;
    (** [ahttp.ParseRequest(req, r)]: fills the view [r], or panics *)
    ParseRequest : http.Request -> ahttp.Request -> Result unit * ahttp.Request;
    (** the goroutine and call-stack state that [aruntime.NewStacktrace]
        captures, as [Print] writes it *)
    Callstack : gmap string string -> string;
    (** [Controller.close] *)
    close : Heap -> Heap;
    (** [Controller.setTarget] *)
    setTarget : router.Route -> Controller -> Controller * option error;
    (** [reflect.ValueOf(target).MethodByName(name)], [None] when invalid *)
    MethodByName : Target -> string -> option Method;
    (** [URL.String()] *)
    URL_String : url.URL -> string;
    (** [ContentType.Raw()] *)
    ContentType_Raw : ahttp.ContentType -> string }.

(** Modelled from the spec: package aruntime is not in the source tree.
    [NewStacktrace(r, cfg)] captures a structured stack trace of the failure
    [r]; what [Print] writes holds the failure message, then the captured
    goroutine and call-stack state. *)
Definition Stacktrace (E : Env) (r : PanicValue) (cfg : gmap string string) : string :=
  r +:+ LF +:+ Callstack E cfg.

(** [Config.StringDefault] *)
Definition StringDefault (cfg : gmap string string) (key def : string) : string :=
  default def (cfg !! key).

(** ** The engine and its pools *)

Inductive PoolCall : Type :=
  | GetController
  | GetRequest
  | GetBuffer
  | PutController (c : Controller)
  | PutRequest (r : ahttp.Request)
  | PutBuffer (b : Buffer).

(** The three pools; [history] is a ghost field that records the calls
    made on them, the object handed back as it is when it enters the pool. *)
Record engine : Type :=
  { cPool : pool.Pool Controller;
    rPool : pool.Pool ahttp.Request;
    bPool : pool.Pool Buffer;
    history : list PoolCall }.

Definition newEngine : engine :=
  {| cPool := pool.NewPool 150 zeroController;
     rPool := pool.NewPool 150 ahttp.zero;
     bPool := pool.NewPool 50 "";
     history := [] |}.

Inductive Level : Type := DEBUG | ERROR.
Inductive LogArg : Type := str (s : string) | int (z : Z).
Record LogLine : Type := { level : Level; text : list LogArg }.

Record World : Type := { eng : engine; heap : Heap; logs : list LogLine }.

Definition set_eng (e : engine) (W : World) : World :=
  {| eng := e; heap := heap W; logs := logs W |}.
Definition set_heap (h : Heap) (W : World) : World :=
  {| eng := eng W; heap := h; logs := logs W |}.

(** ** The monad of engine code: state and panics *)

Definition M (A : Type) : Type := World -> Result A * World.

Definition ret {A} (a : A) : M A := fun W => (Return a, W).
Definition panic {A} (v : PanicValue) : M A := fun W => (Panic v, W).
Definition panicNil {A} : M A := fun W => (PanicNil, W).
Definition bind {A B} (m : M A) (k : A -> M B) : M B :=
  fun W =>
    match m W with
    | (Return a, W1) => k a W1
    | (Panic v, W1) => (Panic v, W1)
    | (PanicNil, W1) => (PanicNil, W1)
    end.

Declare Scope go_scope.
Delimit Scope go_scope with go.
Notation "'let*' x ':=' m 'in' k" := (bind m (fun x => k))
  (at level 10, x name, m at level 100, k at level 200) : go_scope.
Notation "m ;; k" := (bind m (fun _ => k))
  (at level 100, k at level 200, right associativity) : go_scope.
Local Open Scope go_scope.

(** [defer d] around [body]: [d] runs when [body] returns and when it
    panics; the panic goes on afterwards, unless [d] panics itself. *)
Definition defer {A} (d : M unit) (body : M A) : M A :=
  fun W =>
    let (res, W1) := body W in
    match d W1 with
    | (Return _, W2) => (res, W2)
    | (Panic v, W2) => (Panic v, W2)
    | (PanicNil, W2) => (PanicNil, W2)
    end.

(** A deferred function that starts with [recover()]: it receives what
    [recover()] returns, the value of the panic in flight or nil, and the
    panic stops there.  [recover()] returns nil when there is no panic and
    also when the panic was raised with a nil value. *)
Definition defer_recover (d : option PanicValue -> M unit) (body : M unit) : M unit :=
  fun W =>
    match body W with
    | (Return _, W1) => d None W1
    | (Panic v, W1) => d (Some v) W1
    | (PanicNil, W1) => d None W1
    end.

Definition modify_heap (f : Heap -> Heap) : M unit :=
  fun W => (Return tt, set_heap (f (heap W)) W).
Definition user (f : UserCode) : M unit :=
  fun W => let (res, h) := f (heap W) in (res, set_heap h W).
Definition log (l : Level) (txt : list LogArg) : M unit :=
  fun W => (Return tt,
            {| eng := eng W; heap := heap W;
               logs := logs W ++ [{| level := l; text := txt |}] |}).

(** [c.Req.f]: the view behind [c.Req]; a nil [c.Req] panics. *)
Definition Req_ : M ahttp.Request :=
  fun W =>
    match Req (h_c (heap W)) with
    | Some _ => (Return (h_r (heap W)), W)
    | None => (Panic nilDereference, W)
    end.
Definition Req_update (f : ahttp.Request -> ahttp.Request) : M unit :=
  Req_ ;; modify_heap (fun h => set_r (f (h_r h)) h).

(** A call on [c.Res]; a nil [c.Res] panics. *)
Definition Res_ (f : http.ResponseWriter -> http.ResponseWriter) : M unit :=
  fun W =>
    match Res (h_c (heap W)) with
    | Some _ => (Return tt, set_heap (set_w (f (h_w (heap W))) (heap W)) W)
    | None => (Panic nilDereference, W)
    end.

(** [c.Reply()] returns the pointer [c.reply]; using a nil one panics. *)
Definition Reply : M (option reply.Reply) :=
  fun W => (Return (reply (h_c (heap W))), W).
Definition Reply_update (f : reply.Reply -> reply.Reply) : M unit :=
  fun W =>
    match reply (h_c (heap W)) with
    | Some rp =>
        (Return tt, set_heap (set_c (set_reply (Some (f rp)) (h_c (heap W))) (heap W)) W)
    | None => (Panic nilDereference, W)
    end.
Definition deref {A} (p : option A) : M A :=
  match p with
  | Some a => ret a
  | None => panic nilDereference
  end.

Fixpoint forM_ {A} (l : list A) (f : A -> M unit) : M unit :=
  match l with
  | [] => ret tt
  | x :: l' => f x ;; forM_ l' f
  end.

(** ** engine.go *)

Section Engine.
Context (E : Env).

Definition AppProfile : string := appProfile E.
Definition AppConfig : gmap string string := appConfig E.

(** *** Pools *)

Definition getController (e : engine) : Controller * engine :=
  let (c, p) := pool.Get (cPool e) in
  (c, {| cPool := p; rPool := rPool e; bPool := bPool e;
         history := history e ++ [GetController] |}).

Definition getRequest (e : engine) : ahttp.Request * engine :=
  let (r, p) := pool.Get (rPool e) in
  (r, {| cPool := cPool e; rPool := p; bPool := bPool e;
         history := history e ++ [GetRequest] |}).

(** [c.Reset()], then [e.cPool.Put(c)]; the result gives the object as the
    caller's pointer now sees it. *)
Definition putController (c : Controller) (e : engine) : Controller * engine :=
  let c := Controller_Reset c in
  (c, {| cPool := pool.Put c (cPool e); rPool := rPool e; bPool := bPool e;
         history := history e ++ [PutController c] |}).

(** [r.Reset()], then [e.rPool.Put(r)]. *)
Definition putRequest (r : ahttp.Request) (e : engine) : ahttp.Request * engine :=
  let r := ahttp.Reset r in
  (r, {| cPool := cPool e; rPool := pool.Put r (rPool e); bPool := bPool e;
         history := history e ++ [PutRequest r] |}).

Definition getBuffer (e : engine) : Buffer * engine :=
  let (b, p) := pool.Get (bPool e) in
  (b, {| cPool := cPool e; rPool := rPool e; bPool := p;
         history := history e ++ [GetBuffer] |}).

(** [b.Reset()], then [e.bPool.Put(b)]. *)
Definition putBuffer (b : Buffer) (e : engine) : Buffer * engine :=
  let b := Buffer_Reset b in
  (b, {| cPool := cPool e; rPool := rPool e; bPool := pool.Put b (bPool e);
         history := history e ++ [PutBuffer b] |}).

(** The same calls inside a request: [e.putController(c)] and
    [e.putRequest(r)] on the request's own objects, and the buffer calls. *)
Definition e_putController : M unit :=
  fun W =>
    let (c, e) := putController (h_c (heap W)) (eng W) in
    (Return tt, {| eng := e; heap := set_c c (heap W); logs := logs W |}).

Definition e_putRequest : M unit :=
  fun W =>
    let (r, e) := putRequest (h_r (heap W)) (eng W) in
    (Return tt, {| eng := e; heap := set_r r (heap W); logs := logs W |}).

Definition e_getBuffer : M Buffer :=
  fun W => let (b, e) := getBuffer (eng W) in (Return b, set_eng e W).

Definition e_putBuffer (b : Buffer) : M unit :=
  fun W => (Return tt, set_eng (snd (putBuffer b (eng W))) W).

(** *** writeResponse *)

(** [buf.WriteTo(c.Res)]: one [Write] of the buffered bytes, none when the
    buffer is empty. *)
Definition WriteTo (buf : Buffer) : M unit :=
  if decide (buf = "") then ret tt else Res_ (http.issue (http.Write buf)).

(** The steps of [writeResponse] that follow a successful rendering step:
    headers, content type, status line, body. *)
Definition writeReply (rp : reply.Reply) (buf : Buffer) : M unit :=
  (* HTTP headers *)
  forM_ (map_to_list (reply.Hdr rp))
    (fun kv => forM_ (snd kv) (fun vv => Res_ (http.editHeader (http.Add (fst kv) vv))));;
  (* ContentType *)
  Res_ (http.editHeader (http.Set_ ahttp.HeaderContentType (reply.ContType rp)));;
  (* HTTP status *)
  (if reply.IsStatusSet rp
   then Res_ (http.issue (http.WriteHeader (reply.Code_int rp)))
   else Res_ (http.issue (http.WriteHeader http.StatusOK)));;
  (* Write it on the wire *)
  WriteTo buf.

Definition writeResponse : M unit :=
  let* reply := Reply in
  let* buf := e_getBuffer in
  defer (e_putBuffer buf)
    (let* rp := deref reply in
     (* Render and detect the errors earlier *)
     match reply.Rdr rp with
     | Some rdr =>
         match render.run rdr with
         | render.Returns out (Some err) =>
             log ERROR [str "Render error: "; str err];;
             Res_ (http.issue (http.WriteHeader http.StatusInternalServerError));;
             Res_ (http.issue (http.Write ("Render error: " +:+ err +:+ LF)))
         | render.Returns out None => writeReply rp (buf +:+ out)
         | render.Panics out v => panic v
         | render.PanicsNil out => panicNil
         end
     | None => writeReply rp buf
     end).

(** [defaultContentType] *)
Definition defaultContentType : ahttp.ContentType :=
  let cfgValue := StringDefault AppConfig "render.default" "" in
  if decide (cfgValue = "html") then ahttp.ContentTypeHTML
  else if decide (cfgValue = "json") then ahttp.ContentTypeJSON
  else if decide (cfgValue = "xml") then ahttp.ContentTypeXML
  else if decide (cfgValue = "text") then ahttp.ContentTypePlainText
  else ahttp.ContentTypeOctetStream.

(** *** handleRecovery, setDefaults, executeMiddlewares, ServeHTTP *)

Definition Text (format : string) (values : list string) : reply.Reply -> reply.Reply :=
  reply.Text (ContentType_Raw E ahttp.ContentTypePlainText) format values.

(** [r] is what [recover()] returned. *)
Definition handleRecovery (r : option PanicValue) : M unit :=
  match r with
  | Some r =>
      let* req := Req_ in
      log ERROR [str "Internal Server Error on %s"; str (ahttp.Path req)];;
      let st := Stacktrace E r AppConfig in
      let* buf := e_getBuffer in
      defer (e_putBuffer buf)
        (let buf := buf +:+ st in
         log ERROR [str buf];;
         if negb (bool_decide (AppProfile = "prod"))
         then (* detailed error info *)
           Reply_update (fun rp =>
             Text "Internal Server Error: %s" [buf]
               (reply.Status http.StatusInternalServerError rp));;
           writeResponse
         else (* For "prod", detailed information gets logged *)
           Reply_update (fun rp =>
             Text "Internal Server Error" []
               (reply.Status http.StatusInternalServerError rp));;
           writeResponse)
  | None => ret tt
  end.

Definition setDefaults : M unit :=
  let* req := Req_ in
  match ahttp.Locale_ req with
  | None =>
      Req_update (ahttp.set_Locale
        (Some (ahttp.NewLocale (StringDefault AppConfig "i18n.default" "en"))))
  | Some _ => ret tt
  end.

(** [mwChain[0].Next(c)] *)
Definition executeMiddlewares : M unit :=
  match mwChain E with
  | first :: _ => user first
  | [] => panic indexOutOfRange
  end.

(** [c.Req = ahttp.ParseRequest(req, r)] *)
Definition parseRequest (req : http.Request) : M unit :=
  fun W =>
    let (res, r) := ParseRequest E req (h_r (heap W)) in
    match res with
    | Return _ =>
        (Return tt,
         set_heap (set_c (set_Req (Some addr) (h_c (heap W))) (set_r r (heap W))) W)
    | Panic v => (Panic v, set_heap (set_r r (heap W)) W)
    | PanicNil => (PanicNil, set_heap (set_r r (heap W)) W)
    end.

Definition ServeHTTP (w : http.ResponseWriter) (req : http.Request) (e : engine)
    : Result unit * World :=
  let (c, e) := getController e in
  let (r, e) := getRequest e in
  defer
    (modify_heap (close E);;
     e_putRequest;;
     e_putController)
    (parseRequest req;;
     modify_heap (fun h => set_c (set_Res (Some addr) (h_c h)) h);;
     modify_heap (fun h => set_c (set_reply (Some reply.NewReply) (h_c h)) h);;
     (* recovery handling *)
     defer_recover handleRecovery
       (let* req := Req_ in
        log DEBUG [str "Request %s"; str (ahttp.Path req)];;
        (* set defaults when actual value not found *)
        setDefaults;;
        (* Middlewares *)
        executeMiddlewares;;
        (* Write response *)
        writeResponse))
    {| eng := e; heap := {| h_c := c; h_r := r; h_w := w |}; logs := [] |}.

(** *** handleNotFound and redirectTrailingSlash *)

Definition zeroValueMethodByName : PanicValue :=
  "reflect: call of reflect.Value.MethodByName on zero Value".

(** [c.setTarget(route)] *)
Definition c_setTarget (route : router.Route) : M (option error) :=
  fun W =>
    let (c, err) := setTarget E route (h_c (heap W)) in
    (Return err, set_heap (set_c c (heap W)) W).

Definition handleNotFound (domain : router.Domain) (isStatic : bool) : M unit :=
  match router.NotFoundRoute domain with
  | None => Reply_update (fun rp => Text "404 Not Found" [] (reply.NotFound rp))
  | Some route =>
      let* err := c_setTarget route in
      if negb (is_errTargetNotFound err)
      then
        let* c := (fun W => (Return (h_c (heap W)), W)) in
        let* act := deref (action c) in
        match target c with
        | None => panic zeroValueMethodByName
        | Some t =>
            match MethodByName E t (Name act) with
            | Some notFoundAction =>
                log DEBUG [str "Calling custom defined not-found action: %s.%s";
                           str (controller c); str (Name act)];;
                user (Call notFoundAction [VBool isStatic])
            | None =>
                Reply_update (fun rp => Text "404 Not Found" [] (reply.NotFound rp))
            end
        end
      else ret tt
  end.

(** [path[len(path)-1] == '/'] *)
Definition endsInSlash (path : string) : bool :=
  match String.get (String.length path - 1) path with
  | Some a => bool_decide (a = "/"%char)
  | None => false
  end.

Definition redirectTrailingSlash : M unit :=
  let* creq := Req_ in
  let code :=
    if negb (bool_decide (ahttp.Method creq = ahttp.MethodGet))
    then http.StatusTemporaryRedirect
    else http.StatusMovedPermanently in
  let path := ahttp.Path creq in
  let* req := deref (ahttp.Raw creq) in
  let req :=
    if (1 <? String.length path)%nat && endsInSlash path
    then http.set_URL
           (url.set_Path (String.substring 0 (String.length path - 1) path)
              (http.URL req)) req
    else http.set_URL (url.set_Path (path +:+ "/") (http.URL req)) req in
  Req_update (ahttp.set_Raw (Some req));;
  log DEBUG [str "RedirectTrailingSlash: %d, %s ==> %s"; int code; str path;
             str (URL_String E (http.URL req))];;
  Res_ (http.issue (http.Redirect (URL_String E (http.URL req)) code)).

End Engine.

(** * Verification *)

(** ** What writeResponse puts on the wire *)

(** The headers of the reply added to the writer's header map. *)
Definition addAll (l : list (string * list string)) (h : gmap string (list string))
    : gmap string (list string) :=
  foldl (fun h kv => foldl (fun h vv => http.Add (fst kv) vv h) h (snd kv)) h l.

Definition copyHeaders (hdr h : gmap string (list string)) : gmap string (list string) :=
  addAll (map_to_list hdr) h.

(** The calls of [buf.WriteTo]. *)
Definition flush (buf : Buffer) : list http.call :=
  if decide (buf = "") then [] else [http.Write buf].

(** The status line of a reply. *)
Definition statusOf (rp : reply.Reply) : Z :=
  match reply.Code rp with
  | Some code => code
  | None => http.StatusOK
  end.

(** The buffer after the rendering step, when that step succeeds or is absent. *)
Definition rendered (rp : reply.Reply) (buf : Buffer) : option Buffer :=
  match reply.Rdr rp with
  | None => Some buf
  | Some rdr =>
      match render.run rdr with
      | render.Returns out None => Some (buf +:+ out)
      | _ => None
      end
  end.

Abbreviation mkWorld e c r w lg :=
  {| eng := e; heap := {| h_c := c; h_r := r; h_w := w |}; logs := lg |}.

(** The engine after a buffer was taken and given back. *)
Definition bufferCycle (e : engine) : engine :=
  snd (putBuffer (fst (getBuffer e)) (snd (getBuffer e))).

(** Every buffer the pool can hand out is empty. *)
Definition cleanBuffers (e : engine) : Prop :=
  Forall (fun b => b = "") (pool.items (bPool e)) /\ pool.newFn (bPool e) = "".


(** The body of the reply that [handleRecovery] synthesizes for the panic
    value [v]. *)
Definition recoveryBody (E : Env) (v : PanicValue) : string :=
  if bool_decide (appProfile E = "prod")
  then "Internal Server Error"
  else "Internal Server Error: " +:+ Stacktrace E v (appConfig E).

(** The reply after [handleRecovery] rewrote it. *)
Definition recoveryReply (E : Env) (v : PanicValue) (rp : reply.Reply) : reply.Reply :=
  {| reply.Code := Some http.StatusInternalServerError;
     reply.ContType := ContentType_Raw E ahttp.ContentTypePlainText;
     reply.Hdr := reply.Hdr rp;
     reply.Rdr :=
       Some (if bool_decide (appProfile E = "prod")
             then render.Text "Internal Server Error" []
             else render.Text "Internal Server Error: %s" [Stacktrace E v (appConfig E)]) |}.

(** ** Sample collaborators and inputs *)

Definition sampleRaw (t : ahttp.ContentType) : string :=
  match t with
  | ahttp.ContentTypeHTML => "text/html; charset=utf-8"
  | ahttp.ContentTypeJSON => "application/json; charset=utf-8"
  | ahttp.ContentTypeXML => "application/xml; charset=utf-8"
  | ahttp.ContentTypePlainText => "text/plain; charset=utf-8"
  | ahttp.ContentTypeOctetStream => "application/octet-stream"
  end.

Definition sampleParse (req : http.Request) (r : ahttp.Request)
    : Result unit * ahttp.Request :=
  (Return tt,
   {| ahttp.Method := http.Method req; ahttp.Path := url.Path (http.URL req);
      ahttp.Locale_ := None; ahttp.Raw := Some req |}).


Definition sampleEnv (profile : string) (cfg : gmap string string)
    (chain : list UserCode)
    (parse : http.Request -> ahttp.Request -> Result unit * ahttp.Request)
    (resolve : router.Route -> Controller -> Controller * option error)
    (methods : Target -> string -> option Method) : Env :=
  {| appProfile := profile; appConfig := cfg; mwChain := chain;
     ParseRequest := parse;
     Callstack := fun _ => "goroutine 1 [running]:";
     close := fun h => h;
     setTarget := resolve;
     MethodByName := methods;
     URL_String := url.Path;
     ContentType_Raw := sampleRaw |}.

Definition noTarget (route : router.Route) (c : Controller) : Controller * option error :=
  (c, Some errTargetNotFound).
Definition noMethods (t : Target) (name : string) : option Method := None.

Definition devEnv : Env := sampleEnv "dev" ∅ [] sampleParse noTarget noMethods.
Definition prodEnv : Env := sampleEnv "prod" ∅ [] sampleParse noTarget noMethods.

Definition jsonEnv : Env :=
  sampleEnv "dev" {[ "render.default" := "json" ]} [] sampleParse noTarget noMethods.

Definition emptyWriter : http.ResponseWriter :=
  {| http.Header := ∅; http.calls := [] |}.

(** A domain with a custom not-found route, a [setTarget] that resolves
    every route, and three controllers: one whose action takes the flag, one
    whose action takes no argument, one without the action. *)
Definition siteDomain : router.Domain :=
  {| router.NotFoundRoute :=
       Some {| router.Controller := "Site"; router.Action := "NotFound" |} |}.

Definition resolveAll (route : router.Route) (c : Controller) : Controller * option error :=
  ({| Req := Req c; Res := Res c; reply := reply c;
      target := Some (router.Controller route);
      action := Some {| Name := router.Action route |};
      controller := router.Controller route |}, None).

Definition customNotFound (args : list GoValue) : UserCode :=
  fun h =>
    (Return tt,
     set_c (set_reply
              (Some (reply.Text "text/html"
                       (match args with
                        | [VBool true] => "no such file"
                        | _ => "no such page"
                        end) []
                       (reply.NotFound reply.NewReply)))
              (h_c h)) h).

Definition flagMethods (t : Target) (name : string) : option Method :=
  if decide (name = "NotFound")
  then Some {| ins := [TBool]; variadic := None; Func := customNotFound |}
  else None.

Definition noArgMethods (t : Target) (name : string) : option Method :=
  if decide (name = "NotFound")
  then Some {| ins := []; variadic := None; Func := customNotFound |}
  else None.

Definition flagEnv : Env := sampleEnv "dev" ∅ [] sampleParse resolveAll flagMethods.
Definition noArgEnv : Env := sampleEnv "dev" ∅ [] sampleParse resolveAll noArgMethods.
Definition noMethodEnv : Env := sampleEnv "dev" ∅ [] sampleParse resolveAll noMethods.

(** The generic not-found reply. *)
Definition generic404 (E : Env) (rp : reply.Reply) : reply.Reply :=
  {| reply.Code := Some http.StatusNotFound;
     reply.ContType := ContentType_Raw E ahttp.ContentTypePlainText;
     reply.Hdr := reply.Hdr rp;
     reply.Rdr := Some (render.Text "404 Not Found" []) |}.

(** A request for the path [path] in the middle of its lifecycle. *)
Definition requestFor (method path : string) : World :=
  mkWorld newEngine
    {| Req := Some addr; Res := Some addr; reply := Some reply.NewReply;
       target := None; action := None; controller := "" |}
    {| ahttp.Method := method; ahttp.Path := path; ahttp.Locale_ := None;
       ahttp.Raw :=
         Some {| http.Method := method;
                 http.URL := {| url.Path := path; url.RawQuery := "" |} |} |}
    emptyWriter [].

Definition getFoo : http.Request :=
  {| http.Method := "GET"; http.URL := {| url.Path := "/foo"; url.RawQuery := "" |} |}.

(** A context in the middle of a request, with the reply [rp]. *)
Definition inFlight (rp : reply.Reply) : World :=
  mkWorld newEngine
    {| Req := Some addr; Res := Some addr; reply := Some rp; target := None;
       action := None; controller := "" |}
    {| ahttp.Method := "GET"; ahttp.Path := "/foo"; ahttp.Locale_ := None;
       ahttp.Raw := Some getFoo |}
    emptyWriter [].

(** A reply with an explicit status and a header, whose renderer fails. *)
Definition boomReply : reply.Reply :=
  {| reply.Code := Some 201%Z; reply.ContType := "text/html";
     reply.Hdr := {[ "X-Request-Id" := ["42"] ]};
     reply.Rdr := Some (render.Other (render.Returns "<p>" (Some "boom"))) |}.

(** A reply with a body and no status, no content type. *)
Definition helloReply : reply.Reply :=
  {| reply.Code := None; reply.ContType := "";
     reply.Hdr := {[ "X-Request-Id" := ["42"] ]};
     reply.Rdr := Some (render.Text "hello %s" ["bob"]) |}.

(** The path [redirectTrailingSlash] redirects to, and its status. *)
Definition redirectPath (path : string) : string :=
  if (1 <? String.length path)%nat && endsInSlash path
  then String.substring 0 (String.length path - 1) path
  else path +:+ "/".

Definition redirectCode (method : string) : Z :=
  if negb (bool_decide (method = ahttp.MethodGet))
  then http.StatusTemporaryRedirect
  else http.StatusMovedPermanently.

(** The pool calls that concern scratch buffers. *)
Definition isBufferCall (k : PoolCall) : bool :=
  match k with
  | GetBuffer | PutBuffer _ => true
  | _ => false
  end.

(** From [e] to [e'] only scratch buffers were taken and given back. *)
Definition buffersOnly (e e' : engine) : Prop :=
  cPool e' = cPool e /\ rPool e' = rPool e /\
  exists ks, history e' = history e ++ ks /\ Forall (fun k => isBufferCall k = true) ks.

(** Engine code that leaves the Controller and Request pools alone. *)
Definition keepsPools {A} (m : M A) : Prop :=
  forall W, buffersOnly (eng W) (eng (snd (m W))).

(** Sequences of acquire and release on the three pools: the objects
    released are in any state, and [runOps] collects the objects acquired. *)
Inductive PoolOp : Type :=
  | AcquireController
  | ReleaseController (c : Controller)
  | AcquireRequest
  | ReleaseRequest (r : ahttp.Request)
  | AcquireBuffer
  | ReleaseBuffer (b : Buffer).

Inductive Pooled : Type :=
  | AController (c : Controller)
  | ARequest (r : ahttp.Request)
  | ABuffer (b : Buffer).

Fixpoint runOps (ops : list PoolOp) (e : engine) : list Pooled * engine :=
  match ops with
  | [] => ([], e)
  | AcquireController :: ops' =>
      let (c, e1) := getController e in
      let (got, e2) := runOps ops' e1 in (AController c :: got, e2)
  | ReleaseController c :: ops' => runOps ops' (snd (putController c e))
  | AcquireRequest :: ops' =>
      let (r, e1) := getRequest e in
      let (got, e2) := runOps ops' e1 in (ARequest r :: got, e2)
  | ReleaseRequest r :: ops' => runOps ops' (snd (putRequest r e))
  | AcquireBuffer :: ops' =>
      let (b, e1) := getBuffer e in
      let (got, e2) := runOps ops' e1 in (ABuffer b :: got, e2)
  | ReleaseBuffer b :: ops' => runOps ops' (snd (putBuffer b e))
  end.

(** For a pooled object [o]: its release and the acquire of an object of
    its type, the object as the reset of its type leaves it, and what the
    reservoir of its pool holds and can hold. *)
Definition releaseOp (o : Pooled) : PoolOp :=
  match o with
  | AController c => ReleaseController c
  | ARequest r => ReleaseRequest r
  | ABuffer b => ReleaseBuffer b
  end.

Definition acquireOp (o : Pooled) : PoolOp :=
  match o with
  | AController _ => AcquireController
  | ARequest _ => AcquireRequest
  | ABuffer _ => AcquireBuffer
  end.

Definition reset (o : Pooled) : Pooled :=
  match o with
  | AController c => AController (Controller_Reset c)
  | ARequest r => ARequest (ahttp.Reset r)
  | ABuffer b => ABuffer (Buffer_Reset b)
  end.

Definition reservoir (o : Pooled) (e : engine) : list Pooled :=
  match o with
  | AController _ => map AController (pool.items (cPool e))
  | ARequest _ => map ARequest (pool.items (rPool e))
  | ABuffer _ => map ABuffer (pool.items (bPool e))
  end.

Definition capacity (o : Pooled) (e : engine) : nat :=
  match o with
  | AController _ => pool.size (cPool e)
  | ARequest _ => pool.size (rPool e)
  | ABuffer _ => pool.size (bPool e)
  end.

(** An object that cannot be told from a freshly constructed one. *)
Definition fresh (o : Pooled) : Prop :=
  match o with
  | AController c => c = zeroController
  | ARequest r => r = ahttp.zero
  | ABuffer b => b = ""
  end.

(** Every object a pool holds or constructs is fresh. *)
Definition pristinePool {A} (zero : A) (p : pool.Pool A) : Prop :=
  Forall (fun x => x = zero) (pool.items p) /\ pool.newFn p = zero.

Definition pristine (e : engine) : Prop :=
  pristinePool zeroController (cPool e) /\
  pristinePool ahttp.zero (rPool e) /\
  pristinePool (A := Buffer) "" (bPool e).

(** A Controller and a Request view that served a request. *)
Definition usedController : Controller :=
  {| Req := Some addr; Res := Some addr; reply := Some helloReply;
     target := Some "Site"; action := Some {| Name := "Index" |};
     controller := "Site" |}.

Definition usedRequest : ahttp.Request :=
  {| ahttp.Method := "GET"; ahttp.Path := "/foo";
     ahttp.Locale_ := Some (ahttp.NewLocale "en"); ahttp.Raw := Some getFoo |}.

(** The request's objects when the middleware chain is entered: the
    Controller [c0] taken from the pool with the view, the writer wrapper and
    a new reply attached, the view [r1] as parsed, with the default locale
    when none was found. *)
Definition entryHeap (E : Env) (c0 : Controller) (r1 : ahttp.Request)
    (w : http.ResponseWriter) : Heap :=
  {| h_c := set_reply (Some reply.NewReply) (set_Res (Some addr) (set_Req (Some addr) c0));
     h_r :=
       match ahttp.Locale_ r1 with
       | None =>
           ahttp.set_Locale
             (Some (ahttp.NewLocale (StringDefault (appConfig E) "i18n.default" "en"))) r1
       | Some _ => r1
       end;
     h_w := w |}.






Definition crash : UserCode :=
  fun h => (Panic "boom", set_c (set_reply (Some boomReply) (h_c h)) h).

Definition crashEnv : Env :=
  sampleEnv "prod" ∅ [crash] sampleParse noTarget noMethods.



(** ** aah.go: application variables *)

Module strings.
(** [strings.HasSuffix]:
    [len(s) >= len(suffix) && s[len(s)-len(suffix):] == suffix]. *)
Definition HasSuffix (s suffix : string) : bool :=
  (String.length suffix <=? String.length s)%nat &&
  String.eqb
    (String.substring (String.length s - String.length suffix) (String.length suffix) s)
    suffix.
End strings.

Module aah.
Definition appDefaultProfile : string := "dev".
Definition appProfilePrefix : string := "env.".

(** The package variables that the functions below read and write, and the
    configuration object behind [AppConfig()]. *)
Record App : Type :=
  { appName : string;
    appProfile : string;
    appBaseDir : string;
    appIsPackaged : bool;
    appHTTPReadTimeout : Z;
    appHTTPWriteTimeout : Z;
    appHTTPMaxHdrBytes : Z;
    appSSLCert : string;
    appSSLKey : string;
    appMultipartMaxMemory : Z;
    config : gmap string string }.

Definition set_appName (v : string) (a : App) : App :=
  {| appName := v; appProfile := appProfile a; appBaseDir := appBaseDir a;
     appIsPackaged := appIsPackaged a; appHTTPReadTimeout := appHTTPReadTimeout a;
     appHTTPWriteTimeout := appHTTPWriteTimeout a;
     appHTTPMaxHdrBytes := appHTTPMaxHdrBytes a; appSSLCert := appSSLCert a;
     appSSLKey := appSSLKey a; appMultipartMaxMemory := appMultipartMaxMemory a;
     config := config a |}.
Definition set_appProfile (v : string) (a : App) : App :=
  {| appName := appName a; appProfile := v; appBaseDir := appBaseDir a;
     appIsPackaged := appIsPackaged a; appHTTPReadTimeout := appHTTPReadTimeout a;
     appHTTPWriteTimeout := appHTTPWriteTimeout a;
     appHTTPMaxHdrBytes := appHTTPMaxHdrBytes a; appSSLCert := appSSLCert a;
     appSSLKey := appSSLKey a; appMultipartMaxMemory := appMultipartMaxMemory a;
     config := config a |}.
Definition set_appBaseDir (v : string) (a : App) : App :=
  {| appName := appName a; appProfile := appProfile a; appBaseDir := v;
     appIsPackaged := appIsPackaged a; appHTTPReadTimeout := appHTTPReadTimeout a;
     appHTTPWriteTimeout := appHTTPWriteTimeout a;
     appHTTPMaxHdrBytes := appHTTPMaxHdrBytes a; appSSLCert := appSSLCert a;
     appSSLKey := appSSLKey a; appMultipartMaxMemory := appMultipartMaxMemory a;
     config := config a |}.
Definition set_appHTTPReadTimeout (v : Z) (a : App) : App :=
  {| appName := appName a; appProfile := appProfile a; appBaseDir := appBaseDir a;
     appIsPackaged := appIsPackaged a; appHTTPReadTimeout := v;
     appHTTPWriteTimeout := appHTTPWriteTimeout a;
     appHTTPMaxHdrBytes := appHTTPMaxHdrBytes a; appSSLCert := appSSLCert a;
     appSSLKey := appSSLKey a; appMultipartMaxMemory := appMultipartMaxMemory a;
     config := config a |}.
Definition set_appHTTPWriteTimeout (v : Z) (a : App) : App :=
  {| appName := appName a; appProfile := appProfile a; appBaseDir := appBaseDir a;
     appIsPackaged := appIsPackaged a; appHTTPReadTimeout := appHTTPReadTimeout a;
     appHTTPWriteTimeout := v;
     appHTTPMaxHdrBytes := appHTTPMaxHdrBytes a; appSSLCert := appSSLCert a;
     appSSLKey := appSSLKey a; appMultipartMaxMemory := appMultipartMaxMemory a;
     config := config a |}.
Definition set_appHTTPMaxHdrBytes (v : Z) (a : App) : App :=
  {| appName := appName a; appProfile := appProfile a; appBaseDir := appBaseDir a;
     appIsPackaged := appIsPackaged a; appHTTPReadTimeout := appHTTPReadTimeout a;
     appHTTPWriteTimeout := appHTTPWriteTimeout a;
     appHTTPMaxHdrBytes := v; appSSLCert := appSSLCert a;
     appSSLKey := appSSLKey a; appMultipartMaxMemory := appMultipartMaxMemory a;
     config := config a |}.
Definition set_appSSL (cert key : string) (a : App) : App :=
  {| appName := appName a; appProfile := appProfile a; appBaseDir := appBaseDir a;
     appIsPackaged := appIsPackaged a; appHTTPReadTimeout := appHTTPReadTimeout a;
     appHTTPWriteTimeout := appHTTPWriteTimeout a;
     appHTTPMaxHdrBytes := appHTTPMaxHdrBytes a; appSSLCert := cert;
     appSSLKey := key; appMultipartMaxMemory := appMultipartMaxMemory a;
     config := config a |}.
Definition set_appMultipartMaxMemory (v : Z) (a : App) : App :=
  {| appName := appName a; appProfile := appProfile a; appBaseDir := appBaseDir a;
     appIsPackaged := appIsPackaged a; appHTTPReadTimeout := appHTTPReadTimeout a;
     appHTTPWriteTimeout := appHTTPWriteTimeout a;
     appHTTPMaxHdrBytes := appHTTPMaxHdrBytes a; appSSLCert := appSSLCert a;
     appSSLKey := appSSLKey a; appMultipartMaxMemory := v;
     config := config a |}.
Definition set_config (v : gmap string string) (a : App) : App :=
  {| appName := appName a; appProfile := appProfile a; appBaseDir := appBaseDir a;
     appIsPackaged := appIsPackaged a; appHTTPReadTimeout := appHTTPReadTimeout a;
     appHTTPWriteTimeout := appHTTPWriteTimeout a;
     appHTTPMaxHdrBytes := appHTTPMaxHdrBytes a; appSSLCert := appSSLCert a;
     appSSLKey := appSSLKey a; appMultipartMaxMemory := appMultipartMaxMemory a;
     config := v |}.

(** The library calls of aah.go; an error is given by its message. *)
Record Sys : Type :=
  { (** [Config.SetProfile]: the error or nil, and the configuration after *)
    SetProfile : string -> gmap string string -> option string * gmap string string;
    (** [Config.BoolDefault] *)
    BoolDefault : gmap string string -> string -> bool -> bool;
    (** [filepath.Base] *)
    Base : string -> string;
    (** [time.ParseDuration]: the duration, and the error or nil *)
    ParseDuration : string -> Z * option string;
    (** [ess.StrToBytes]: the size, and the error or nil *)
    StrToBytes : string -> Z * option string;
    (** [ess.IsStrEmpty] *)
    IsStrEmpty : string -> bool }.

(** [AppProfile] *)
Definition AppProfile (a : App) : string := appProfile a.

(** [AppBaseDir]; [wd] is what [os.Getwd()] returns. *)
Definition AppBaseDir (wd : string) (a : App) : string * App :=
  if appIsPackaged a
  then
    let wd :=
      if strings.HasSuffix wd "/bin"
      then String.substring 0 (String.length wd - 4) wd
      else wd in
    (wd, set_appBaseDir wd a)
  else (appBaseDir a, a).

(** [AllAppProfiles]; [keys] is [AppConfig().KeysByPath("env")]. *)
Definition AllAppProfiles (keys : list string) : list string :=
  foldl (fun profiles v =>
           if decide (v = "default") then profiles else profiles ++ [v])
        [] keys.

(** [IsSSLEnabled] *)
Definition IsSSLEnabled (S : Sys) (a : App) : bool :=
  BoolDefault S (config a) "server.ssl.enable" false.

(** [SetAppProfile] *)
Definition SetAppProfile (S : Sys) (profile : string) (a : App) : option string * App :=
  let (err, cfg) := SetProfile S (appProfilePrefix +:+ profile) (config a) in
  match err with
  | Some e => (Some e, set_config cfg a)
  | None => (None, set_appProfile profile (set_config cfg a))
  end.

(** How a startup function ends: [log.Fatal] (the process exits), or a
    return with an error or nil. *)
Inductive Startup : Type :=
  | Fatal (err : string) (a : App)
  | Returned (err : option string) (a : App).

Definition timeUnitError : string :=
  "'server.timeout.{read|write}' value is not a valid time unit".
Definition headerBytesError : string :=
  "'server.max_header_bytes' value is not a valid size unit".
Definition sslError : string :=
  "HTTP SSL is enabled, so 'server.ssl.cert' & 'server.ssl.key' value is required".
Definition multipartError : string :=
  "'request.multipart_size' value is not a valid size unit".

(** [strings.HasSuffix(t, "s") || strings.HasSuffix(t, "m")] *)
Definition hasTimeUnit (t : string) : bool :=
  strings.HasSuffix t "s" || strings.HasSuffix t "m".

(** [initAppVariables] *)
Definition initAppVariables (S : Sys) (a : App) : Startup :=
  let a := set_appName (StringDefault (config a) "name" (Base S (appBaseDir a))) a in
  let a := set_appProfile (StringDefault (config a) "env.active" appDefaultProfile) a in
  match SetAppProfile S (AppProfile a) a with
  | (Some err, a) => Fatal err a
  | (None, a) =>
      let cfg := config a in
      let readTimeout := StringDefault cfg "server.timeout.read" "90s" in
      let writeTimeout := StringDefault cfg "server.timeout.write" "90s" in
      if negb (hasTimeUnit readTimeout) && negb (hasTimeUnit writeTimeout)
      then Returned (Some timeUnitError) a
      else
        let (rd, err) := ParseDuration S readTimeout in
        let a := set_appHTTPReadTimeout rd a in
        match err with
        | Some e => Returned (Some ("'server.timeout.read': " +:+ e)) a
        | None =>
            let (wr, err) := ParseDuration S writeTimeout in
            let a := set_appHTTPWriteTimeout wr a in
            match err with
            | Some e => Returned (Some ("'server.timeout.write': " +:+ e)) a
            | None =>
                let maxHdrBytesStr := StringDefault cfg "server.max_header_bytes" "1mb" in
                match StrToBytes S maxHdrBytesStr with
                | (_, Some _) => Returned (Some headerBytesError) a
                | (maxHdrBytes, None) =>
                    let a := set_appHTTPMaxHdrBytes maxHdrBytes a in
                    let a :=
                      set_appSSL (StringDefault cfg "server.ssl.cert" "")
                                 (StringDefault cfg "server.ssl.key" "") a in
                    if IsSSLEnabled S a
                       && (IsStrEmpty S (appSSLCert a) || IsStrEmpty S (appSSLKey a))
                    then Returned (Some sslError) a
                    else
                      let multipartMemoryStr :=
                        StringDefault cfg "request.multipart_size" "32mb" in
                      let (mm, err) := StrToBytes S multipartMemoryStr in
                      let a := set_appMultipartMaxMemory mm a in
                      match err with
                      | Some _ => Returned (Some multipartError) a
                      | None => Returned None a
                      end
                end
            end
        end
  end.

(** The profile [initAppVariables] activates, the configuration once that
    profile is set, and the settings it then reads. *)
Definition activeProfile (a : App) : string :=
  StringDefault (config a) "env.active" appDefaultProfile.
Definition profiledConfig (S : Sys) (a : App) : gmap string string :=
  snd (SetProfile S (appProfilePrefix +:+ activeProfile a) (config a)).
Definition readTimeout (S : Sys) (a : App) : string :=
  StringDefault (profiledConfig S a) "server.timeout.read" "90s".
Definition writeTimeout (S : Sys) (a : App) : string :=
  StringDefault (profiledConfig S a) "server.timeout.write" "90s".

(** Sample library calls: durations of the form digits and unit, sizes
    ending in "mb", profiles that are always found. *)
Definition sampleSys : Sys :=
  {| SetProfile := fun _ cfg => (None, cfg);
     BoolDefault := fun cfg key def =>
       match cfg !! key with
       | Some v => String.eqb v "true"
       | None => def
       end;
     Base := fun path => path;
     ParseDuration := fun t =>
       if strings.HasSuffix t "s" || strings.HasSuffix t "m" || strings.HasSuffix t "h"
       then (90%Z, None)
       else (0%Z, Some ("time: invalid duration " +:+ t));
     StrToBytes := fun t =>
       if strings.HasSuffix t "mb" then (1048576%Z, None)
       else (0%Z, Some "format is not a valid size unit");
     IsStrEmpty := fun t => String.eqb t "" |}.

Definition sampleApp (cfg : gmap string string) : App :=
  {| appName := ""; appProfile := ""; appBaseDir := "/srv/app"; appIsPackaged := true;
     appHTTPReadTimeout := 0; appHTTPWriteTimeout := 0; appHTTPMaxHdrBytes := 0;
     appSSLCert := ""; appSSLKey := ""; appMultipartMaxMemory := 0; config := cfg |}.
End aah.

(** ** Vocabulary for the further properties of engine.go *)

(** What [Header.Add] of the values [v], one after the other, makes of a
    header entry: nothing when there is no value to add, the old values
    followed by the new ones otherwise. *)
Definition mergeAt (old : option (list string)) (v : list string) : option (list string) :=
  match v with
  | [] => old
  | _ :: _ => Some (default [] old ++ v)
  end.

(** Whether the arguments [args] fit the parameters of [m], so that
    [Call] runs the method. *)
Definition accepts (m : Method) (args : list GoValue) : bool :=
  match variadic m with
  | None => allAssignable args (ins m)
  | Some elem =>
      (length (ins m) <=? length args)%nat
      && allAssignable (take (length (ins m)) args) (ins m)
      && forallb (fun v => assignable v elem) (drop (length (ins m)) args)
  end.

(** A controller whose not-found action is variadic:
    [NotFound(isStatic bool, extra ...string)]. *)
Definition variadicMethods (t : Target) (name : string) : option Method :=
  if decide (name = "NotFound")
  then Some {| ins := [TBool]; variadic := Some (TOther "string");
               Func := customNotFound |}
  else None.
Definition variadicEnv : Env :=
  sampleEnv "dev" ∅ [] sampleParse resolveAll variadicMethods.

(** A header map whose keys are all in canonical form, as [Header.Add] and
    [Header.Set] leave them. *)
Definition canonicalKeys (hdr : gmap string (list string)) : Prop :=
  forall k, is_Some (hdr !! k) -> textproto.CanonicalMIMEHeaderKey k = k.

(** The values that the entries [l] of a reply hold for the writer's key
    [k]: those of the entries whose key has the canonical form [k], entry
    after entry. *)
Definition valuesFor (k : string) (l : list (string * list string)) : list string :=
  flat_map snd (filter (fun kv => textproto.CanonicalMIMEHeaderKey (fst kv) = k) l).

(** Engine code whose effect on the engine stays within the relation [R]. *)
Definition respects {A} (R : engine -> engine -> Prop) (m : M A) : Prop :=
  forall W, R (eng W) (eng (snd (m W))).

Definition sameEngine (e e' : engine) : Prop := e' = e.
Definition staysClean (e e' : engine) : Prop := cleanBuffers e -> cleanBuffers e'.

(** Scratch buffers taken and given back in a run of pool calls. *)
Definition isGetBuffer (k : PoolCall) : bool :=
  match k with GetBuffer => true | _ => false end.
Definition isPutBuffer (k : PoolCall) : bool :=
  match k with PutBuffer _ => true | _ => false end.
Definition buffersTaken (ks : list PoolCall) : nat := length (List.filter isGetBuffer ks).
Definition buffersGiven (ks : list PoolCall) : nat := length (List.filter isPutBuffer ks).

(** From [e] to [e'] every scratch buffer taken was given back. *)
Definition buffersBalanced (e e' : engine) : Prop :=
  exists ks, history e' = history e ++ ks /\ buffersTaken ks = buffersGiven ks.

(** The path of the URL that [redirectTrailingSlash] left in the raw
    request of [W]. *)
Definition redirectedTo (E : Env) (W : World) : option string :=
  match ahttp.Raw (h_r (heap (snd (redirectTrailingSlash E W)))) with
  | Some raw => Some (url.Path (http.URL raw))
  | None => None
  end.

(** An environment without any middleware stage. *)
Definition emptyChainEnv : Env :=
  sampleEnv "prod" ∅ [] sampleParse noTarget noMethods.

(** A [setTarget] that fails with an error of its own and resolves nothing. *)
Definition brokenTarget (route : router.Route) (c : Controller) : Controller * option error :=
  (c, Some (errors_New "controller registry is not ready")).
Definition brokenTargetEnv : Env :=
  sampleEnv "dev" ∅ [] sampleParse brokenTarget noMethods.

(** A context whose writer is missing. *)
Definition noWriter (method path : string) : World :=
  mkWorld newEngine
    {| Req := Some addr; Res := None; reply := Some reply.NewReply;
       target := None; action := None; controller := "" |}
    {| ahttp.Method := method; ahttp.Path := path; ahttp.Locale_ := None;
       ahttp.Raw :=
         Some {| http.Method := method;
                 http.URL := {| url.Path := path; url.RawQuery := "page=2" |} |} |}
    emptyWriter [].

(** A writer that already carries headers, and a reply that adds some. *)
Definition cookieWriter : http.ResponseWriter :=
  {| http.Header := {[ "Set-Cookie" := ["a=1"]; "Vary" := ["Accept"] ]};
     http.calls := [] |}.
Definition cookieReply : reply.Reply :=
  {| reply.Code := None; reply.ContType := "text/html";
     reply.Hdr := {[ "Set-Cookie" := ["b=2"; "c=3"]; "Content-Type" := ["text/csv"] ]};
     reply.Rdr := None |}.
Definition cookieWorld : World :=
  mkWorld newEngine
    {| Req := Some addr; Res := Some addr; reply := Some cookieReply; target := None;
       action := None; controller := "" |}
    {| ahttp.Method := "GET"; ahttp.Path := "/foo"; ahttp.Locale_ := None;
       ahttp.Raw := Some getFoo |}
    cookieWriter [].

(** One engine serving requests one after the other, each with its writer:
    the engine after the last of them. *)
Definition serveAll (E : Env) (reqs : list (http.ResponseWriter * http.Request))
    (e : engine) : engine :=
  foldl (fun e wr => eng (snd (ServeHTTP E (fst wr) (snd wr) e))) e reqs.

(** A reply whose header key is not in canonical form. *)
Definition lowerCaseReply : reply.Reply :=
  {| reply.Code := None; reply.ContType := "text/html";
     reply.Hdr := {[ "set-cookie" := ["b=2"] ]};
     reply.Rdr := None |}.
Definition lowerCaseWorld : World :=
  mkWorld newEngine
    {| Req := Some addr; Res := Some addr; reply := Some lowerCaseReply; target := None;
       action := None; controller := "" |}
    {| ahttp.Method := "GET"; ahttp.Path := "/foo"; ahttp.Locale_ := None;
       ahttp.Raw := Some getFoo |}
    cookieWriter [].

Lemma World_eta (W : World) :
  W = mkWorld (eng W) (h_c (heap W)) (h_r (heap W)) (h_w (heap W)) (logs W).
Proof. destruct W as [e [c r w] lg]. reflexivity. Qed.

(** ** Stepping through engine code *)

Lemma bind_Return {A B} (m : M A) (k : A -> M B) W a W1 :
  m W = (Return a, W1) -> bind m k W = k a W1.
Proof. intros H. unfold bind. rewrite H. reflexivity. Qed.

Lemma bind_Panic {A B} (m : M A) (k : A -> M B) W v W1 :
  m W = (Panic v, W1) -> bind m k W = (Panic v, W1).
Proof. intros H. unfold bind. rewrite H. reflexivity. Qed.


Lemma defer_Return {A} (d : M unit) (body : M A) W res W1 u W2 :
  body W = (res, W1) -> d W1 = (Return u, W2) -> defer d body W = (res, W2).
Proof. intros H1 H2. unfold defer. rewrite H1, H2. reflexivity. Qed.

Lemma Res_Some f e c r w lg p :
  Res c = Some p ->
  Res_ f (mkWorld e c r w lg) = (Return tt, mkWorld e c r (f w) lg).
Proof. intros H. unfold Res_. cbn. rewrite H. reflexivity. Qed.

Lemma e_getBuffer_eq e c r w lg :
  e_getBuffer (mkWorld e c r w lg)
  = (Return (fst (getBuffer e)), mkWorld (snd (getBuffer e)) c r w lg).
Proof. unfold e_getBuffer. cbn. destruct (getBuffer e). reflexivity. Qed.

Lemma e_putBuffer_eq b e c r w lg :
  e_putBuffer b (mkWorld e c r w lg)
  = (Return tt, mkWorld (snd (putBuffer b e)) c r w lg).
Proof. reflexivity. Qed.

Lemma Reply_eq e c r w lg :
  Reply (mkWorld e c r w lg) = (Return (reply c), mkWorld e c r w lg).
Proof. reflexivity. Qed.

Lemma ret_eq {A} (a : A) W : ret a W = (Return a, W).
Proof. reflexivity. Qed.

Lemma log_eq l txt e c r w lg :
  log l txt (mkWorld e c r w lg)
  = (Return tt, mkWorld e c r w (lg ++ [{| level := l; text := txt |}])).
Proof. reflexivity. Qed.

Lemma modify_heap_eq f e c r w lg :
  modify_heap f (mkWorld e c r w lg)
  = (Return tt, {| eng := e; heap := f {| h_c := c; h_r := r; h_w := w |}; logs := lg |}).
Proof. reflexivity. Qed.

Lemma Req_eq e c r w lg q :
  Req c = Some q -> Req_ (mkWorld e c r w lg) = (Return r, mkWorld e c r w lg).
Proof. intros H. unfold Req_. cbn. rewrite H. reflexivity. Qed.

Lemma Req_update_eq f e c r w lg q :
  Req c = Some q ->
  Req_update f (mkWorld e c r w lg) = (Return tt, mkWorld e c (f r) w lg).
Proof.
  intros H. unfold Req_update.
  erewrite bind_Return by (eapply Req_eq; eassumption). reflexivity.
Qed.

Lemma Reply_update_eq f e c r w lg rp :
  reply c = Some rp ->
  Reply_update f (mkWorld e c r w lg)
  = (Return tt, mkWorld e (set_reply (Some (f rp)) c) r w lg).
Proof. intros H. unfold Reply_update. cbn. rewrite H. reflexivity. Qed.

Lemma WriteTo_eq buf e c r w lg p :
  Res c = Some p ->
  WriteTo buf (mkWorld e c r w lg)
  = (Return tt,
     mkWorld e c r
       {| http.Header := http.Header w; http.calls := http.calls w ++ flush buf |} lg).
Proof.
  intros H. unfold WriteTo, flush. destruct (decide (buf = "")).
  - rewrite app_nil_r. destruct w. reflexivity.
  - rewrite (Res_Some _ _ _ _ _ _ p H). reflexivity.
Qed.

Create HintDb go_step.
#[export] Hint Resolve Res_Some e_getBuffer_eq e_putBuffer_eq Reply_eq ret_eq log_eq
  WriteTo_eq modify_heap_eq Req_eq Req_update_eq Reply_update_eq : go_step.

(** One statement of a sequence that returns. *)
Ltac step :=
  erewrite bind_Return by (eauto with go_step);
  cbv [set_heap set_eng set_c set_r set_w];
  cbn [heap h_c h_r h_w eng logs].

Section WriteResponse.
Context (E : Env).

Lemma forM_inner k (v : list string) e c r w lg p :
  Res c = Some p ->
  forM_ v (fun vv => Res_ (http.editHeader (http.Add k vv))) (mkWorld e c r w lg)
  = (Return tt,
     mkWorld e c r
       {| http.Header := foldl (fun h vv => http.Add k vv h) (http.Header w) v;
          http.calls := http.calls w |} lg).
Proof.
  intros Hres. revert w. induction v as [|vv v IH]; intros w.
  - destruct w. reflexivity.
  - cbn [forM_]. step. rewrite IH. reflexivity.
Qed.

Lemma forM_headers (l : list (string * list string)) e c r w lg p :
  Res c = Some p ->
  forM_ l (fun kv => forM_ (snd kv) (fun vv => Res_ (http.editHeader (http.Add (fst kv) vv))))
    (mkWorld e c r w lg)
  = (Return tt,
     mkWorld e c r
       {| http.Header := addAll l (http.Header w); http.calls := http.calls w |} lg).
Proof.
  intros Hres. revert w. induction l as [|kv l IH]; intros w.
  - destruct w. reflexivity.
  - cbn [forM_]. erewrite bind_Return by (eapply forM_inner; eassumption).
    rewrite IH. reflexivity.
Qed.

Lemma statusOf_eq rp :
  (if reply.IsStatusSet rp then reply.Code_int rp else http.StatusOK) = statusOf rp.
Proof. unfold reply.IsStatusSet, reply.Code_int, statusOf. destruct (reply.Code rp); reflexivity. Qed.

Lemma status_step rp e c r w lg p :
  Res c = Some p ->
  (if reply.IsStatusSet rp
   then Res_ (http.issue (http.WriteHeader (reply.Code_int rp)))
   else Res_ (http.issue (http.WriteHeader http.StatusOK))) (mkWorld e c r w lg)
  = (Return tt, mkWorld e c r (http.issue (http.WriteHeader (statusOf rp)) w) lg).
Proof.
  intros Hres. rewrite <- statusOf_eq.
  destruct (reply.IsStatusSet rp); eauto with go_step.
Qed.

Lemma writeReply_eq rp buf e c r w lg p :
  Res c = Some p ->
  writeReply rp buf (mkWorld e c r w lg)
  = (Return tt,
     mkWorld e c r
       {| http.Header :=
            http.Set_ ahttp.HeaderContentType (reply.ContType rp)
              (copyHeaders (reply.Hdr rp) (http.Header w));
          http.calls := http.calls w ++ http.WriteHeader (statusOf rp) :: flush buf |}
       lg).
Proof.
  intros Hres. unfold writeReply.
  erewrite bind_Return by (eapply forM_headers; eassumption).
  step.
  erewrite bind_Return by (eapply status_step; eassumption).
  erewrite WriteTo_eq by eassumption. cbn.
  rewrite <- app_assoc. reflexivity.
Qed.

Lemma writeResponse_ok e c r w lg rp p buf :
  reply c = Some rp ->
  Res c = Some p ->
  rendered rp (fst (getBuffer e)) = Some buf ->
  writeResponse (mkWorld e c r w lg)
  = (Return tt,
     mkWorld (bufferCycle e) c r
       {| http.Header :=
            http.Set_ ahttp.HeaderContentType (reply.ContType rp)
              (copyHeaders (reply.Hdr rp) (http.Header w));
          http.calls := http.calls w ++ http.WriteHeader (statusOf rp) :: flush buf |}
       lg).
Proof.
  intros Hrp Hres Hrd. unfold writeResponse.
  do 2 step.
  eapply defer_Return; [|apply e_putBuffer_eq].
  rewrite Hrp. cbn [deref]. step.
  unfold rendered in Hrd.
  destruct (reply.Rdr rp) as [rdr|].
  - destruct (render.run rdr) as [out [err|]|out v|out]; try discriminate.
    injection Hrd as <-. eapply writeReply_eq; eassumption.
  - injection Hrd as <-. eapply writeReply_eq; eassumption.
Qed.

Lemma writeResponse_render_err e c r w lg rp p rdr out m :
  reply c = Some rp ->
  Res c = Some p ->
  reply.Rdr rp = Some rdr ->
  render.run rdr = render.Returns out (Some m) ->
  writeResponse (mkWorld e c r w lg)
  = (Return tt,
     mkWorld (bufferCycle e) c r
       {| http.Header := http.Header w;
          http.calls :=
            http.calls w ++ [http.WriteHeader http.StatusInternalServerError;
                             http.Write ("Render error: " +:+ m +:+ LF)] |}
       (lg ++ [{| level := ERROR; text := [str "Render error: "; str m] |}])).
Proof.
  intros Hrp Hres Hrdr Hrun. unfold writeResponse.
  do 2 step.
  eapply defer_Return; [|apply e_putBuffer_eq].
  rewrite Hrp. cbn [deref]. step.
  rewrite Hrdr, Hrun.
  do 2 step. erewrite Res_Some by eassumption.
  unfold http.issue. cbn [http.Header http.calls].
  rewrite <- app_assoc. reflexivity.
Qed.



End WriteResponse.

(** ** handleRecovery *)

Lemma append_cons a (s t : string) : String a s +:+ t = String a (s +:+ t).
Proof. reflexivity. Qed.

Lemma append_empty_l (s : string) : "" +:+ s = s.
Proof. reflexivity. Qed.

Lemma append_empty_r (s : string) : s +:+ "" = s.
Proof.
  induction s as [|a s IH]; [reflexivity|]. rewrite append_cons, IH. reflexivity.
Qed.


Lemma getBuffer_clean e :
  cleanBuffers e -> fst (getBuffer e) = "" /\ cleanBuffers (snd (getBuffer e)).
Proof.
  intros [Hitems Hnew]. unfold getBuffer, pool.Get.
  destruct (pool.items (bPool e)) as [|b rest] eqn:Hi; cbn.
  - split; [exact Hnew|]. split; [cbn; rewrite ?Hi; assumption | exact Hnew].
  - inversion Hitems; subst. split; [reflexivity|]. split; assumption.
Qed.

Lemma putBuffer_clean b e : cleanBuffers e -> cleanBuffers (snd (putBuffer b e)).
Proof.
  intros [Hitems Hnew]. unfold putBuffer, pool.Put, cleanBuffers.
  cbn [snd bPool].
  destruct (length (pool.items (bPool e)) <? pool.size (bPool e))%nat;
    cbn [pool.items pool.newFn].
  - split; [|exact Hnew]. apply Forall_app. split; [exact Hitems|]. repeat constructor.
  - split; assumption.
Qed.



Lemma flush_nonempty b : b <> "" -> flush b = [http.Write b].
Proof. intros H. unfold flush. case_decide; [contradiction|reflexivity]. Qed.

Section HandleRecovery.
Context (E : Env).

(** What [handleRecovery] does with an intercepted panic. *)
Lemma handleRecovery_eq v e c r w lg rp q p :
  Req c = Some q ->
  Res c = Some p ->
  reply c = Some rp ->
  cleanBuffers e ->
  handleRecovery E (Some v) (mkWorld e c r w lg)
  = (Return tt,
     mkWorld (snd (putBuffer "" (bufferCycle (snd (getBuffer e)))))
       (set_reply (Some (recoveryReply E v rp)) c) r
       {| http.Header :=
            http.Set_ ahttp.HeaderContentType (ContentType_Raw E ahttp.ContentTypePlainText)
              (copyHeaders (reply.Hdr rp) (http.Header w));
          http.calls :=
            http.calls w ++ [http.WriteHeader http.StatusInternalServerError;
                             http.Write (recoveryBody E v)] |}
       (lg ++ [{| level := ERROR;
                  text := [str "Internal Server Error on %s"; str (ahttp.Path r)] |};
               {| level := ERROR; text := [str (Stacktrace E v (AppConfig E))] |}])).
Proof.
  intros Hreq Hres Hrp Hclean. unfold handleRecovery.
  destruct (getBuffer_clean e Hclean) as [Hb1 Hclean1].
  destruct (getBuffer_clean _ Hclean1) as [Hb2 _].
  erewrite bind_Return by (eapply Req_eq; eassumption).
  do 2 step.
  unfold recoveryReply, recoveryBody, AppProfile, AppConfig.
  destruct (bool_decide (appProfile E = "prod")); cbn [negb];
    (eapply defer_Return;
     [ rewrite Hb1, append_empty_l; step;
       (erewrite bind_Return by (eapply Reply_update_eq; eassumption));
       (erewrite writeResponse_ok;
          [| reflexivity | eassumption | rewrite Hb2; reflexivity ]);
       rewrite flush_nonempty by discriminate;
       cbn [render.Sprintf]; rewrite ?append_empty_r;
       rewrite <- app_assoc; reflexivity
     | reflexivity ]).
Qed.

End HandleRecovery.

(** ** The claims on writeResponse and handleRecovery *)

(** C3. A reply whose renderer is set and fails with message [m]: the
    writer's calls are exactly status 500 and the body
    ["Render error: " + m + "\n"]; the header map is left as it was (no
    header copied, no content type set) and the reply's own status code is
    not written. *)
Theorem writeResponse_render_error_preempts (W : World)
    (rp : reply.Reply) (rdr : render.Render) (out m : string)
    (p : ptr http.ResponseWriter) :
  reply (h_c (heap W)) = Some rp ->
  reply.Rdr rp = Some rdr ->
  render.run rdr = render.Returns out (Some m) ->
  Res (h_c (heap W)) = Some p ->
  fst (writeResponse W) = Return tt /\
  http.calls (h_w (heap (snd (writeResponse W))))
    = http.calls (h_w (heap W))
      ++ [http.WriteHeader 500; http.Write ("Render error: " +:+ m +:+ LF)] /\
  http.Header (h_w (heap (snd (writeResponse W)))) = http.Header (h_w (heap W)) /\
  h_c (heap (snd (writeResponse W))) = h_c (heap W).
Proof.
  intros Hrp Hrdr Hrun Hres. rewrite (World_eta W).
  erewrite writeResponse_render_err by eassumption.
  repeat split.
Qed.

Lemma writeResponse_render_error_preempts_witness :
  fst (writeResponse (inFlight boomReply)) = Return tt /\
  http.calls (h_w (heap (snd (writeResponse (inFlight boomReply)))))
    = [] ++ [http.WriteHeader 500; http.Write ("Render error: " +:+ "boom" +:+ LF)] /\
  http.Header (h_w (heap (snd (writeResponse (inFlight boomReply))))) = ∅ /\
  h_c (heap (snd (writeResponse (inFlight boomReply))))
    = h_c (heap (inFlight boomReply)).
Proof.
  apply (writeResponse_render_error_preempts (inFlight boomReply) boomReply
           (render.Other (render.Returns "<p>" (Some "boom"))) "<p>" "boom" addr);
    reflexivity.
Defined.

(** C9. A reply whose rendering step succeeds or is absent: the status
    written is 200 when no status was assigned, and the assigned status
    otherwise. *)
Theorem writeResponse_status (W : World) (rp : reply.Reply)
    (p : ptr http.ResponseWriter) (body : Buffer) :
  reply (h_c (heap W)) = Some rp ->
  Res (h_c (heap W)) = Some p ->
  rendered rp (fst (getBuffer (eng W))) = Some body ->
  fst (writeResponse W) = Return tt /\
  (reply.Code rp = None ->
   http.calls (h_w (heap (snd (writeResponse W))))
     = http.calls (h_w (heap W)) ++ http.WriteHeader 200 :: flush body) /\
  (forall code, reply.Code rp = Some code ->
   http.calls (h_w (heap (snd (writeResponse W))))
     = http.calls (h_w (heap W)) ++ http.WriteHeader code :: flush body).
Proof.
  intros Hrp Hres Hrd. rewrite (World_eta W).
  erewrite writeResponse_ok by eassumption. cbn [fst snd heap h_w http.calls].
  unfold statusOf. split; [reflexivity|]. split.
  - intros ->. reflexivity.
  - intros code ->. reflexivity.
Qed.

Lemma writeResponse_status_witness :
  fst (writeResponse (inFlight helloReply)) = Return tt /\
  (reply.Code helloReply = None ->
   http.calls (h_w (heap (snd (writeResponse (inFlight helloReply)))))
     = [] ++ http.WriteHeader 200 :: flush "hello bob") /\
  (forall code, reply.Code helloReply = Some code ->
   http.calls (h_w (heap (snd (writeResponse (inFlight helloReply)))))
     = [] ++ http.WriteHeader code :: flush "hello bob").
Proof.
  apply (writeResponse_status (inFlight helloReply) helloReply addr "hello bob");
    reflexivity.
Defined.

(** C4, as the claim states it, fails: the reply has no content type and
    the configuration asks for json, yet the header is set to the empty
    string and not to the configured default. *)
Lemma writeResponse_no_content_type_fallback :
  reply.ContType helloReply = "" /\
  defaultContentType jsonEnv = ahttp.ContentTypeJSON /\
  http.Header (h_w (heap (snd (writeResponse (inFlight helloReply)))))
    !! ahttp.HeaderContentType = Some [""] /\
  Some [""] <> Some [ContentType_Raw jsonEnv (defaultContentType jsonEnv)].
Proof. repeat split. discriminate. Qed.

(** C4, amended. A reply that renders successfully: the content-type header
    is set to the reply's content type as it is, the empty one included;
    [defaultContentType] maps the configured html, json, xml and text to
    their content types and anything else to octet-stream. *)
Theorem writeResponse_content_type (E : Env) (W : World) (rp : reply.Reply)
    (p : ptr http.ResponseWriter) (body : Buffer) :
  reply (h_c (heap W)) = Some rp ->
  Res (h_c (heap W)) = Some p ->
  rendered rp (fst (getBuffer (eng W))) = Some body ->
  http.Header (h_w (heap (snd (writeResponse W)))) !! ahttp.HeaderContentType
    = Some [reply.ContType rp] /\
  (StringDefault (appConfig E) "render.default" "" = "html" ->
   defaultContentType E = ahttp.ContentTypeHTML) /\
  (StringDefault (appConfig E) "render.default" "" = "json" ->
   defaultContentType E = ahttp.ContentTypeJSON) /\
  (StringDefault (appConfig E) "render.default" "" = "xml" ->
   defaultContentType E = ahttp.ContentTypeXML) /\
  (StringDefault (appConfig E) "render.default" "" = "text" ->
   defaultContentType E = ahttp.ContentTypePlainText) /\
  (StringDefault (appConfig E) "render.default" "" ∉ ["html"; "json"; "xml"; "text"] ->
   defaultContentType E = ahttp.ContentTypeOctetStream).
Proof.
  intros Hrp Hres Hrd. split.
  - rewrite (World_eta W). erewrite writeResponse_ok by eassumption.
    cbn [snd heap h_w http.Header]. apply lookup_insert_eq.
  - unfold defaultContentType, AppConfig.
    repeat split; intros H; try (rewrite H; reflexivity).
    repeat case_decide; try reflexivity; exfalso; apply H;
      match goal with Heq : _ = _ |- _ => rewrite Heq end; set_solver.
Qed.

Lemma writeResponse_content_type_witness :
  http.Header (h_w (heap (snd (writeResponse (inFlight helloReply)))))
    !! ahttp.HeaderContentType = Some [reply.ContType helloReply] /\
  defaultContentType jsonEnv = ahttp.ContentTypeJSON.
Proof.
  pose proof (writeResponse_content_type jsonEnv (inFlight helloReply) helloReply addr
                "hello bob" eq_refl eq_refl eq_refl) as (Hct & _ & Hjson & _).
  split; [exact Hct | apply Hjson; reflexivity].
Defined.

Lemma history_getBuffer e : history (snd (getBuffer e)) = history e ++ [GetBuffer].
Proof. unfold getBuffer. destruct (pool.Get (bPool e)). reflexivity. Qed.

Lemma history_bufferCycle e :
  history (bufferCycle e) = history e ++ [GetBuffer; PutBuffer ""].
Proof.
  unfold bufferCycle, putBuffer. cbn [snd history]. rewrite history_getBuffer.
  rewrite <- app_assoc. reflexivity.
Qed.



(** ** handleNotFound *)

Section HandleNotFound.
Context (E : Env).

Lemma c_setTarget_eq route e c r w lg :
  c_setTarget E route (mkWorld e c r w lg)
  = (Return (snd (setTarget E route c)), mkWorld e (fst (setTarget E route c)) r w lg).
Proof. unfold c_setTarget. cbn. destruct (setTarget E route c). reflexivity. Qed.

Lemma handleNotFound_no_route domain isStatic e c r w lg rp :
  router.NotFoundRoute domain = None ->
  reply c = Some rp ->
  handleNotFound E domain isStatic (mkWorld e c r w lg)
  = (Return tt, mkWorld e (set_reply (Some (generic404 E rp)) c) r w lg).
Proof.
  intros Hroute Hrp. unfold handleNotFound. rewrite Hroute.
  erewrite Reply_update_eq by eassumption. reflexivity.
Qed.

Lemma handleNotFound_target_missing domain isStatic route e c r w lg :
  router.NotFoundRoute domain = Some route ->
  snd (setTarget E route c) = Some errTargetNotFound ->
  handleNotFound E domain isStatic (mkWorld e c r w lg)
  = (Return tt, mkWorld e (fst (setTarget E route c)) r w lg).
Proof.
  intros Hroute Herr. unfold handleNotFound. rewrite Hroute.
  erewrite bind_Return by apply c_setTarget_eq.
  rewrite Herr. reflexivity.
Qed.

Lemma handleNotFound_resolved domain isStatic route e c r w lg act t :
  router.NotFoundRoute domain = Some route ->
  is_errTargetNotFound (snd (setTarget E route c)) = false ->
  action (fst (setTarget E route c)) = Some act ->
  target (fst (setTarget E route c)) = Some t ->
  handleNotFound E domain isStatic (mkWorld e c r w lg)
  = match MethodByName E t (Name act) with
    | Some notFoundAction =>
        user (Call notFoundAction [VBool isStatic])
          (mkWorld e (fst (setTarget E route c)) r w
             (lg ++ [{| level := DEBUG;
                        text := [str "Calling custom defined not-found action: %s.%s";
                                 str (controller (fst (setTarget E route c)));
                                 str (Name act)] |}]))
    | None =>
        Reply_update (fun rp => generic404 E rp)
          (mkWorld e (fst (setTarget E route c)) r w lg)
    end.
Proof.
  intros Hroute Herr Hact Htarget. unfold handleNotFound. rewrite Hroute.
  erewrite bind_Return by apply c_setTarget_eq.
  rewrite Herr. cbn [negb].
  erewrite bind_Return by reflexivity. cbn [heap h_c].
  rewrite Hact. cbn [deref]. step. rewrite Htarget.
  destruct (MethodByName E t (Name act)) as [m|]; [|reflexivity].
  step. reflexivity.
Qed.

Lemma Call_single_bool m b h :
  ins m = [TBool] -> Call m [VBool b] h = Func m [VBool b] h.
Proof. intros H. unfold Call. rewrite H. destruct (variadic m); reflexivity. Qed.

End HandleNotFound.

(** C10. The domain declares a not-found route and setting it as the target
    fails with the target-not-found error: [handleNotFound] returns and the
    context is exactly as [setTarget] left it; the writer is untouched, and
    so is the reply when [setTarget] does not touch it: no 404 status and
    no body are set. *)
Theorem handleNotFound_target_not_found_is_silent (E : Env) (W : World)
    (domain : router.Domain) (route : router.Route) (isStatic : bool) :
  router.NotFoundRoute domain = Some route ->
  snd (setTarget E route (h_c (heap W))) = Some errTargetNotFound ->
  reply (fst (setTarget E route (h_c (heap W)))) = reply (h_c (heap W)) ->
  fst (handleNotFound E domain isStatic W) = Return tt /\
  h_c (heap (snd (handleNotFound E domain isStatic W)))
    = fst (setTarget E route (h_c (heap W))) /\
  reply (h_c (heap (snd (handleNotFound E domain isStatic W)))) = reply (h_c (heap W)) /\
  h_w (heap (snd (handleNotFound E domain isStatic W))) = h_w (heap W).
Proof.
  intros Hroute Herr Hkeep. rewrite (World_eta W).
  erewrite handleNotFound_target_missing by eassumption.
  cbn [fst snd heap h_c h_w]. repeat split. exact Hkeep.
Qed.

Lemma handleNotFound_target_not_found_is_silent_witness :
  fst (handleNotFound devEnv siteDomain false (requestFor "GET" "/nowhere")) = Return tt /\
  reply (h_c (heap (snd (handleNotFound devEnv siteDomain false
                           (requestFor "GET" "/nowhere")))))
    = Some reply.NewReply /\
  h_w (heap (snd (handleNotFound devEnv siteDomain false (requestFor "GET" "/nowhere"))))
    = emptyWriter.
Proof.
  pose proof (handleNotFound_target_not_found_is_silent devEnv
                (requestFor "GET" "/nowhere") siteDomain
                {| router.Controller := "Site"; router.Action := "NotFound" |} false
                eq_refl eq_refl eq_refl) as (Hret & _ & Hreply & Hw).
  split; [exact Hret|]. split; [exact Hreply | exact Hw].
Defined.

(** C8, as the claim states it, fails.  A custom handler whose action takes
    no argument is not compatible with the single boolean flag, yet no
    generic 404 is emitted: the reflective call panics and the reply is
    untouched.  And when the custom handler cannot be resolved at all, the
    reply is untouched as well. *)
Lemma handleNotFound_incompatible_action_no_404 :
  fst (handleNotFound noArgEnv siteDomain true (requestFor "GET" "/nowhere"))
    = Panic "reflect: Call with too many input arguments" /\
  reply (h_c (heap (snd (handleNotFound noArgEnv siteDomain true
                           (requestFor "GET" "/nowhere")))))
    = Some reply.NewReply /\
  reply (h_c (heap (snd (handleNotFound devEnv siteDomain true
                           (requestFor "GET" "/nowhere")))))
    = Some reply.NewReply /\
  Some reply.NewReply <> Some (generic404 noArgEnv reply.NewReply).
Proof. repeat split. discriminate. Qed.

(** C8, amended.  (1) No custom not-found route: the reply gets status 404
    and the plain-text body "404 Not Found".  (2) A custom route that
    [setTarget] resolves, whose target has a method named as the action and
    taking a single bool: that method is called with the static-asset flag.
    (3) A custom route that [setTarget] resolves, whose target has no method
    of that name: the generic 404 reply.  (What happens when the route
    cannot be resolved is C10.) *)
Theorem handleNotFound_dispatch (E : Env) (W : World) (domain : router.Domain)
    (isStatic : bool) :
  (forall rp,
     router.NotFoundRoute domain = None ->
     reply (h_c (heap W)) = Some rp ->
     fst (handleNotFound E domain isStatic W) = Return tt /\
     reply (h_c (heap (snd (handleNotFound E domain isStatic W))))
       = Some (generic404 E rp) /\
     reply.Code (generic404 E rp) = Some 404%Z /\
     rendered (generic404 E rp) "" = Some "404 Not Found") /\
  (forall route act t m,
     router.NotFoundRoute domain = Some route ->
     is_errTargetNotFound (snd (setTarget E route (h_c (heap W)))) = false ->
     action (fst (setTarget E route (h_c (heap W)))) = Some act ->
     target (fst (setTarget E route (h_c (heap W)))) = Some t ->
     MethodByName E t (Name act) = Some m ->
     ins m = [TBool] ->
     fst (handleNotFound E domain isStatic W)
       = fst (Func m [VBool isStatic]
                (set_c (fst (setTarget E route (h_c (heap W)))) (heap W))) /\
     heap (snd (handleNotFound E domain isStatic W))
       = snd (Func m [VBool isStatic]
                (set_c (fst (setTarget E route (h_c (heap W)))) (heap W)))) /\
  (forall route act t rp,
     router.NotFoundRoute domain = Some route ->
     is_errTargetNotFound (snd (setTarget E route (h_c (heap W)))) = false ->
     action (fst (setTarget E route (h_c (heap W)))) = Some act ->
     target (fst (setTarget E route (h_c (heap W)))) = Some t ->
     MethodByName E t (Name act) = None ->
     reply (fst (setTarget E route (h_c (heap W)))) = Some rp ->
     fst (handleNotFound E domain isStatic W) = Return tt /\
     reply (h_c (heap (snd (handleNotFound E domain isStatic W))))
       = Some (generic404 E rp)).
Proof.
  rewrite (World_eta W). cbn [heap h_c]. split; [|split].
  - intros rp Hroute Hrp.
    erewrite handleNotFound_no_route by eassumption. repeat split.
  - intros route act t m Hroute Herr Hact Htarget Hmethod Hins.
    erewrite handleNotFound_resolved by eassumption.
    rewrite Hmethod. unfold user. cbn [heap].
    rewrite Call_single_bool by assumption.
    destruct (Func m _ _). split; reflexivity.
  - intros route act t rp Hroute Herr Hact Htarget Hmethod Hrp.
    erewrite handleNotFound_resolved by eassumption.
    rewrite Hmethod. erewrite Reply_update_eq by eassumption. split; reflexivity.
Qed.

Lemma handleNotFound_dispatch_witness :
  reply (h_c (heap (snd (handleNotFound devEnv {| router.NotFoundRoute := None |} true
                           (requestFor "GET" "/nowhere")))))
    = Some (generic404 devEnv reply.NewReply) /\
  heap (snd (handleNotFound flagEnv siteDomain true (requestFor "GET" "/nowhere")))
    = snd (customNotFound [VBool true]
             (set_c (fst (resolveAll {| router.Controller := "Site";
                                        router.Action := "NotFound" |}
                            (h_c (heap (requestFor "GET" "/nowhere")))))
                (heap (requestFor "GET" "/nowhere")))) /\
  reply (h_c (heap (snd (handleNotFound noMethodEnv siteDomain true
                           (requestFor "GET" "/nowhere")))))
    = Some (generic404 noMethodEnv reply.NewReply).
Proof.
  destruct (handleNotFound_dispatch devEnv (requestFor "GET" "/nowhere")
              {| router.NotFoundRoute := None |} true) as (H1 & _ & _).
  destruct (handleNotFound_dispatch flagEnv (requestFor "GET" "/nowhere")
              siteDomain true) as (_ & H2 & _).
  destruct (handleNotFound_dispatch noMethodEnv (requestFor "GET" "/nowhere")
              siteDomain true) as (_ & _ & H3).
  split; [apply (H1 reply.NewReply eq_refl eq_refl)|].
  split.
  - apply (H2 {| router.Controller := "Site"; router.Action := "NotFound" |}
              {| Name := "NotFound" |} "Site"
              {| ins := [TBool]; Func := customNotFound |}
              eq_refl eq_refl eq_refl eq_refl eq_refl eq_refl).
  - apply (H3 {| router.Controller := "Site"; router.Action := "NotFound" |}
              {| Name := "NotFound" |} "Site" reply.NewReply
              eq_refl eq_refl eq_refl eq_refl eq_refl eq_refl).
Defined.

(** ** redirectTrailingSlash *)

Lemma get_append_slash (stem : string) :
  String.get (String.length stem) (stem +:+ "/") = Some "/"%char.
Proof.
  induction stem as [|a stem IH]; [reflexivity|].
  rewrite append_cons. cbn [String.length String.get]. exact IH.
Qed.

Lemma length_append_slash (stem : string) :
  String.length (stem +:+ "/") = S (String.length stem).
Proof.
  induction stem as [|a stem IH]; [reflexivity|].
  rewrite append_cons. cbn [String.length]. rewrite IH. reflexivity.
Qed.

Lemma substring_append_slash (stem : string) :
  String.substring 0 (String.length stem) (stem +:+ "/") = stem.
Proof.
  induction stem as [|a stem IH]; [reflexivity|].
  rewrite append_cons. cbn [String.length String.substring]. rewrite IH. reflexivity.
Qed.

Lemma endsInSlash_append (stem : string) : endsInSlash (stem +:+ "/") = true.
Proof.
  unfold endsInSlash. rewrite length_append_slash.
  cbn [Nat.sub]. rewrite Nat.sub_0_r, get_append_slash.
  apply bool_decide_eq_true_2. reflexivity.
Qed.

Lemma endsInSlash_inv (path : string) :
  endsInSlash path = true -> exists stem, path = stem +:+ "/".
Proof.
  unfold endsInSlash. induction path as [|a path IH]; [discriminate|].
  cbn [String.length Nat.sub]. rewrite Nat.sub_0_r.
  destruct path as [|b path].
  - cbn [String.length String.get]. intros H.
    apply bool_decide_eq_true_1 in H. subst a. exists "". reflexivity.
  - cbn [String.length String.get]. intros H.
    cbn [String.length Nat.sub] in IH. rewrite Nat.sub_0_r in IH.
    destruct (IH H) as [stem Hstem]. exists (String a stem).
    rewrite append_cons, <- Hstem. reflexivity.
Qed.

Lemma redirectPath_strip (stem : string) :
  stem <> "" -> redirectPath (stem +:+ "/") = stem.
Proof.
  intros Hne. unfold redirectPath.
  rewrite endsInSlash_append, length_append_slash.
  destruct stem as [|a stem]; [contradiction|].
  cbn [String.length Nat.ltb Nat.leb andb Nat.sub]. rewrite ?Nat.sub_0_r.
  apply (substring_append_slash (String a stem)).
Qed.

Lemma redirectPath_append (path : string) :
  (forall stem, path <> stem +:+ "/") -> redirectPath path = path +:+ "/".
Proof.
  intros Hno. unfold redirectPath.
  destruct (endsInSlash path) eqn:Hends.
  - destruct (endsInSlash_inv path Hends) as [stem Hstem].
    exfalso. exact (Hno stem Hstem).
  - rewrite andb_false_r. reflexivity.
Qed.

Section Redirect.
Context (E : Env).

Lemma redirectTrailingSlash_eq e c r w lg q raw p :
  Req c = Some q ->
  ahttp.Raw r = Some raw ->
  Res c = Some p ->
  redirectTrailingSlash E (mkWorld e c r w lg)
  = (Return tt,
     mkWorld e c
       (ahttp.set_Raw
          (Some (http.set_URL (url.set_Path (redirectPath (ahttp.Path r)) (http.URL raw)) raw))
          r)
       {| http.Header := http.Header w;
          http.calls :=
            http.calls w
            ++ [http.Redirect
                  (URL_String E (url.set_Path (redirectPath (ahttp.Path r)) (http.URL raw)))
                  (redirectCode (ahttp.Method r))] |}
       (lg ++ [{| level := DEBUG;
                  text := [str "RedirectTrailingSlash: %d, %s ==> %s";
                           int (redirectCode (ahttp.Method r)); str (ahttp.Path r);
                           str (URL_String E (url.set_Path (redirectPath (ahttp.Path r))
                                                (http.URL raw)))] |}])).
Proof.
  intros Hreq Hraw Hres. unfold redirectTrailingSlash.
  erewrite bind_Return by (eapply Req_eq; eassumption).
  rewrite Hraw. cbn [deref]. step.
  assert (Hnew :
    (if (1 <? String.length (ahttp.Path r))%nat && endsInSlash (ahttp.Path r)
     then http.set_URL
            (url.set_Path
               (String.substring 0 (String.length (ahttp.Path r) - 1) (ahttp.Path r))
               (http.URL raw)) raw
     else http.set_URL (url.set_Path (ahttp.Path r +:+ "/") (http.URL raw)) raw)
    = http.set_URL (url.set_Path (redirectPath (ahttp.Path r)) (http.URL raw)) raw).
  { unfold redirectPath.
    destruct ((1 <? String.length (ahttp.Path r))%nat && endsInSlash (ahttp.Path r));
      reflexivity. }
  rewrite Hnew. do 2 step. erewrite Res_Some by eassumption. reflexivity.
Qed.

End Redirect.

(** C7, as the claim states it, fails on the root path: "/" ends in a
    slash, yet the redirect goes to "//" and not to the path without the
    trailing slash (the empty path). *)
Lemma redirectTrailingSlash_root_path :
  endsInSlash "/" = true /\
  String.substring 0 (String.length "/" - 1) "/" = "" /\
  http.calls (h_w (heap (snd (redirectTrailingSlash devEnv (requestFor "GET" "/")))))
    = [http.Redirect "//" 301] /\
  ahttp.Raw (h_r (heap (snd (redirectTrailingSlash devEnv (requestFor "GET" "/")))))
    = Some {| http.Method := "GET";
              http.URL := {| url.Path := "//"; url.RawQuery := "" |} |} /\
  "//" <> "".
Proof. repeat split. discriminate. Qed.

(** C7, amended.  A path of more than one byte that ends in '/' is
    redirected to the path without that slash; a path that does not end in
    '/' is redirected to the path with one slash appended, and so is the
    root path "/".  The status is 301 for GET and 307 for every other
    method. *)
Theorem redirectTrailingSlash_target (E : Env) (W : World)
    (q : ptr ahttp.Request) (raw : http.Request) (p : ptr http.ResponseWriter) :
  Req (h_c (heap W)) = Some q ->
  ahttp.Raw (h_r (heap W)) = Some raw ->
  Res (h_c (heap W)) = Some p ->
  exists (target : string) (code : Z),
    fst (redirectTrailingSlash E W) = Return tt /\
    ahttp.Raw (h_r (heap (snd (redirectTrailingSlash E W))))
      = Some (http.set_URL (url.set_Path target (http.URL raw)) raw) /\
    http.calls (h_w (heap (snd (redirectTrailingSlash E W))))
      = http.calls (h_w (heap W))
        ++ [http.Redirect (URL_String E (url.set_Path target (http.URL raw))) code] /\
    (forall stem, stem <> "" -> ahttp.Path (h_r (heap W)) = stem +:+ "/" -> target = stem) /\
    ((forall stem, ahttp.Path (h_r (heap W)) <> stem +:+ "/") ->
     target = ahttp.Path (h_r (heap W)) +:+ "/") /\
    (ahttp.Path (h_r (heap W)) = "/" -> target = "//") /\
    (ahttp.Method (h_r (heap W)) = "GET" -> code = 301%Z) /\
    (ahttp.Method (h_r (heap W)) <> "GET" -> code = 307%Z).
Proof.
  intros Hreq Hraw Hres.
  exists (redirectPath (ahttp.Path (h_r (heap W)))),
         (redirectCode (ahttp.Method (h_r (heap W)))).
  rewrite (World_eta W). cbn [heap h_c h_r h_w] in *.
  erewrite redirectTrailingSlash_eq by eassumption.
  cbn [fst snd heap h_r h_w http.calls ahttp.set_Raw ahttp.Raw].
  split; [reflexivity|]. split; [reflexivity|]. split; [reflexivity|].
  split; [|split; [|split; [|split]]].
  - intros stem Hne ->. apply redirectPath_strip, Hne.
  - apply redirectPath_append.
  - intros ->. reflexivity.
  - intros ->. reflexivity.
  - intros Hne. unfold redirectCode, ahttp.MethodGet.
    rewrite bool_decide_eq_false_2 by exact Hne. reflexivity.
Qed.

Lemma redirectTrailingSlash_target_witness :
  http.calls (h_w (heap (snd (redirectTrailingSlash devEnv (requestFor "GET" "/foo/")))))
    = [http.Redirect "/foo" 301] /\
  http.calls (h_w (heap (snd (redirectTrailingSlash devEnv (requestFor "POST" "/foo")))))
    = [http.Redirect "/foo/" 307].
Proof.
  destruct (redirectTrailingSlash_target devEnv (requestFor "GET" "/foo/") addr
              {| http.Method := "GET";
                 http.URL := {| url.Path := "/foo/"; url.RawQuery := "" |} |} addr
              eq_refl eq_refl eq_refl)
    as (t1 & c1 & _ & _ & Hcalls1 & Hstrip & _ & _ & Hget & _).
  destruct (redirectTrailingSlash_target devEnv (requestFor "POST" "/foo") addr
              {| http.Method := "POST";
                 http.URL := {| url.Path := "/foo"; url.RawQuery := "" |} |} addr
              eq_refl eq_refl eq_refl)
    as (t2 & c2 & _ & _ & Hcalls2 & _ & Happend & _ & _ & Hpost).
  rewrite Hcalls1, Hcalls2.
  rewrite (Hstrip "/foo" ltac:(discriminate) eq_refl), (Hget eq_refl).
  rewrite Happend, (Hpost ltac:(discriminate)); [split; reflexivity|].
  intros stem Hstem. cbn in Hstem.
  destruct stem as [|a [|b [|c [|d [|e stem]]]]]; discriminate.
Defined.

(** ** The pools during a request *)

Lemma buffersOnly_refl e : buffersOnly e e.
Proof.
  split; [reflexivity|]. split; [reflexivity|].
  exists []. rewrite app_nil_r. split; [reflexivity | constructor].
Qed.

Lemma buffersOnly_trans e1 e2 e3 :
  buffersOnly e1 e2 -> buffersOnly e2 e3 -> buffersOnly e1 e3.
Proof.
  intros (Hc1 & Hr1 & ks1 & Hh1 & Hks1) (Hc2 & Hr2 & ks2 & Hh2 & Hks2).
  split; [congruence|]. split; [congruence|].
  exists (ks1 ++ ks2). split.
  - rewrite Hh2, Hh1, app_assoc. reflexivity.
  - apply Forall_app. split; assumption.
Qed.

Lemma buffersOnly_getBuffer e : buffersOnly e (snd (getBuffer e)).
Proof.
  unfold getBuffer. destruct (pool.Get (bPool e)) as [b pl].
  split; [reflexivity|]. split; [reflexivity|].
  exists [GetBuffer]. split; [reflexivity | repeat constructor].
Qed.

Lemma buffersOnly_putBuffer b e : buffersOnly e (snd (putBuffer b e)).
Proof.
  split; [reflexivity|]. split; [reflexivity|].
  exists [PutBuffer ""]. split; [reflexivity | repeat constructor].
Qed.

Lemma keeps_ret {A} (a : A) : keepsPools (ret a).
Proof. intros W. apply buffersOnly_refl. Qed.

Lemma keeps_panic {A} v : keepsPools (@panic A v).
Proof. intros W. apply buffersOnly_refl. Qed.

Lemma keeps_bind {A B} (m : M A) (k : A -> M B) :
  keepsPools m -> (forall a, keepsPools (k a)) -> keepsPools (bind m k).
Proof.
  intros Hm Hk W. unfold bind. specialize (Hm W).
  destruct (m W) as [[a|v|] W1]; cbn [snd] in *; [|exact Hm..].
  eapply buffersOnly_trans; [exact Hm | apply Hk].
Qed.

Lemma keeps_defer {A} (d : M unit) (body : M A) :
  keepsPools d -> keepsPools body -> keepsPools (defer d body).
Proof.
  intros Hd Hb W. unfold defer. specialize (Hb W).
  destruct (body W) as [res W1]. specialize (Hd W1). cbn [snd] in *.
  destruct (d W1) as [[u|v|] W2]; cbn [snd] in *;
    eapply buffersOnly_trans; eassumption.
Qed.

Lemma keeps_defer_recover (d : option PanicValue -> M unit) (body : M unit) :
  (forall r, keepsPools (d r)) -> keepsPools body -> keepsPools (defer_recover d body).
Proof.
  intros Hd Hb W. unfold defer_recover. specialize (Hb W).
  destruct (body W) as [[u|v|] W1]; cbn [snd] in *;
    (eapply buffersOnly_trans; [exact Hb | apply Hd]).
Qed.

Lemma keeps_modify_heap f : keepsPools (modify_heap f).
Proof. intros W. apply buffersOnly_refl. Qed.

Lemma keeps_user f : keepsPools (user f).
Proof. intros W. unfold user. destruct (f (heap W)). apply buffersOnly_refl. Qed.

Lemma keeps_log l txt : keepsPools (log l txt).
Proof. intros W. apply buffersOnly_refl. Qed.

Lemma keeps_Req : keepsPools Req_.
Proof. intros W. unfold Req_. destruct (Req _); apply buffersOnly_refl. Qed.

Lemma keeps_Res f : keepsPools (Res_ f).
Proof. intros W. unfold Res_. destruct (Res _); apply buffersOnly_refl. Qed.

Lemma keeps_Reply : keepsPools Reply.
Proof. intros W. apply buffersOnly_refl. Qed.

Lemma keeps_Reply_update f : keepsPools (Reply_update f).
Proof. intros W. unfold Reply_update. destruct (reply _); apply buffersOnly_refl. Qed.

Lemma keeps_deref {A} (o : option A) : keepsPools (deref o).
Proof. destruct o; [apply keeps_ret | apply keeps_panic]. Qed.

Lemma keeps_e_getBuffer : keepsPools e_getBuffer.
Proof.
  intros W. unfold e_getBuffer. pose proof (buffersOnly_getBuffer (eng W)) as H.
  destruct (getBuffer (eng W)). exact H.
Qed.

Lemma keeps_e_putBuffer b : keepsPools (e_putBuffer b).
Proof. intros W. apply buffersOnly_putBuffer. Qed.

Lemma keeps_forM {A} (l : list A) (f : A -> M unit) :
  (forall a, keepsPools (f a)) -> keepsPools (forM_ l f).
Proof.
  intros Hf. induction l as [|a l IH]; [apply keeps_ret|].
  cbn [forM_]. apply keeps_bind; [apply Hf | intros _; exact IH].
Qed.

Create HintDb keeps.
#[export] Hint Resolve keeps_ret keeps_panic keeps_modify_heap keeps_user keeps_log
  keeps_Req keeps_Res keeps_Reply keeps_Reply_update keeps_deref keeps_e_getBuffer
  keeps_e_putBuffer : keeps.

(** Engine code built from calls that keep the pools keeps them. *)
Ltac keeps :=
  repeat first
    [ progress eauto with keeps
    | apply keeps_bind; [|intros ?]
    | apply keeps_defer
    | apply keeps_defer_recover; [intros ?|]
    | apply keeps_forM; intros ?
    | match goal with
      | |- keepsPools (if ?b then _ else _) => destruct b
      | |- keepsPools (match ?x with _ => _ end) => destruct x
      end ].

Lemma keeps_WriteTo buf : keepsPools (WriteTo buf).
Proof. unfold WriteTo. keeps. Qed.

Lemma keeps_writeReply rp buf : keepsPools (writeReply rp buf).
Proof. unfold writeReply. pose proof keeps_WriteTo. keeps. Qed.

Lemma keeps_writeResponse : keepsPools writeResponse.
Proof. unfold writeResponse. pose proof keeps_writeReply. keeps. Qed.

Section Pools.
Context (E : Env).

Lemma keeps_handleRecovery r : keepsPools (handleRecovery E r).
Proof. unfold handleRecovery. pose proof keeps_writeResponse. keeps. Qed.

Lemma keeps_setDefaults : keepsPools (setDefaults E).
Proof. unfold setDefaults, Req_update. keeps. Qed.

Lemma keeps_executeMiddlewares : keepsPools (executeMiddlewares E).
Proof. unfold executeMiddlewares. keeps. Qed.

Lemma keeps_parseRequest req : keepsPools (parseRequest E req).
Proof.
  intros W. unfold parseRequest.
  destruct (ParseRequest E req (h_r (heap W))) as [[u|v|] r]; apply buffersOnly_refl.
Qed.

End Pools.

(** C5. Whatever the collaborators do and however the request ends (the
    result may be a return or a panic), [ServeHTTP] takes one Controller and
    one Request view from their pools and puts each back exactly once, reset:
    besides scratch-buffer calls, the pool history of the request is
    get, get, put, put. *)
Theorem ServeHTTP_releases_once (E : Env) (w : http.ResponseWriter)
    (req : http.Request) (e : engine) :
  exists ks,
    Forall (fun k => isBufferCall k = true) ks /\
    history (eng (snd (ServeHTTP E w req e)))
      = history e ++ [GetController; GetRequest] ++ ks
        ++ [PutRequest ahttp.zero; PutController zeroController] /\
    cPool (eng (snd (ServeHTTP E w req e)))
      = pool.Put zeroController (snd (pool.Get (cPool e))) /\
    rPool (eng (snd (ServeHTTP E w req e)))
      = pool.Put ahttp.zero (snd (pool.Get (rPool e))) /\
    h_c (heap (snd (ServeHTTP E w req e))) = zeroController /\
    h_r (heap (snd (ServeHTTP E w req e))) = ahttp.zero.
Proof.
  unfold ServeHTTP, getController, getRequest.
  destruct (pool.Get (cPool e)) as [c0 cp].
  cbn [rPool cPool bPool history].
  destruct (pool.Get (rPool e)) as [r0 rp].
  cbn [rPool cPool bPool history snd].
  match goal with
  | |- context [defer _ ?body ?W0] =>
      assert (Hbody : buffersOnly (eng W0) (eng (snd (body W0))));
      [| unfold defer; destruct (body W0) as [res W1] ]
  end.
  { match goal with |- buffersOnly _ (eng (snd (?body ?W0))) =>
      assert (Hk : keepsPools body); [|exact (Hk W0)] end.
    pose proof (keeps_parseRequest E). pose proof (keeps_handleRecovery E).
    pose proof (keeps_setDefaults E). pose proof (keeps_executeMiddlewares E).
    pose proof keeps_writeResponse. keeps. }
  cbn [eng snd] in Hbody. destruct Hbody as (Hcp & Hrp & ks & Hh & Hks).
  cbn [cPool rPool history] in Hcp, Hrp, Hh.
  exists ks. split; [exact Hks|].
  destruct W1 as [e1 [c1 r1 w1] lg1]. cbn [eng] in *.
  cbn. rewrite Hcp, Hrp, Hh. rewrite <- !app_assoc. repeat split.
Qed.

(** ** Reuse of pooled objects *)

Lemma pristinePool_Get {A} (zero : A) (p : pool.Pool A) :
  pristinePool zero p ->
  fst (pool.Get p) = zero /\ pristinePool zero (snd (pool.Get p)).
Proof.
  intros [Hitems Hnew]. unfold pool.Get.
  destruct (pool.items p) as [|x rest] eqn:Hi; cbn [fst snd].
  - split; [exact Hnew|]. split; [rewrite Hi; constructor | exact Hnew].
  - inversion Hitems; subst. split; [reflexivity|].
    split; cbn [pool.items pool.newFn]; [assumption | reflexivity].
Qed.

Lemma pristinePool_Put {A} (zero : A) (p : pool.Pool A) :
  pristinePool zero p -> pristinePool zero (pool.Put zero p).
Proof.
  intros [Hitems Hnew]. unfold pool.Put, pristinePool.
  destruct (length (pool.items p) <? pool.size p)%nat; cbn [pool.items pool.newFn].
  - split; [|exact Hnew]. apply Forall_app. split; [exact Hitems|]. repeat constructor.
  - split; assumption.
Qed.

Lemma pristine_newEngine : pristine newEngine.
Proof. repeat split; constructor. Qed.

Lemma pristine_getController e :
  pristine e -> fst (getController e) = zeroController /\ pristine (snd (getController e)).
Proof.
  intros (Hc & Hr & Hb). unfold getController.
  destruct (pristinePool_Get _ _ Hc) as [Hget Hc'].
  destruct (pool.Get (cPool e)) as [c p]. cbn [fst snd] in *.
  split; [exact Hget|]. unfold pristine. cbn [cPool rPool bPool]. auto.
Qed.

Lemma pristine_getRequest e :
  pristine e -> fst (getRequest e) = ahttp.zero /\ pristine (snd (getRequest e)).
Proof.
  intros (Hc & Hr & Hb). unfold getRequest.
  destruct (pristinePool_Get _ _ Hr) as [Hget Hr'].
  destruct (pool.Get (rPool e)) as [r p]. cbn [fst snd] in *.
  split; [exact Hget|]. unfold pristine. cbn [cPool rPool bPool]. auto.
Qed.

Lemma pristine_getBuffer e :
  pristine e -> fst (getBuffer e) = "" /\ pristine (snd (getBuffer e)).
Proof.
  intros (Hc & Hr & Hb). unfold getBuffer.
  destruct (pristinePool_Get _ _ Hb) as [Hget Hb'].
  destruct (pool.Get (bPool e)) as [b p]. cbn [fst snd] in *.
  split; [exact Hget|]. unfold pristine. cbn [cPool rPool bPool]. auto.
Qed.

Lemma pristine_putController c e : pristine e -> pristine (snd (putController c e)).
Proof.
  intros (Hc & Hr & Hb). unfold putController, Controller_Reset. cbn [snd].
  split; [|split]; cbn [cPool rPool bPool]; [apply pristinePool_Put, Hc | exact Hr | exact Hb].
Qed.

Lemma pristine_putRequest r e : pristine e -> pristine (snd (putRequest r e)).
Proof.
  intros (Hc & Hr & Hb). unfold putRequest, ahttp.Reset. cbn [snd].
  split; [|split]; cbn [cPool rPool bPool]; [exact Hc | apply pristinePool_Put, Hr | exact Hb].
Qed.

Lemma pristine_putBuffer b e : pristine e -> pristine (snd (putBuffer b e)).
Proof.
  intros (Hc & Hr & Hb). unfold putBuffer, Buffer_Reset. cbn [snd].
  split; [|split]; cbn [cPool rPool bPool]; [exact Hc | exact Hr | apply pristinePool_Put, Hb].
Qed.

Lemma runOps_fresh (ops : list PoolOp) (e : engine) :
  pristine e -> Forall fresh (fst (runOps ops e)) /\ pristine (snd (runOps ops e)).
Proof.
  revert e. induction ops as [|op ops IH]; intros e He.
  - split; [constructor | exact He].
  - destruct op; cbn [runOps].
    + destruct (pristine_getController e He) as [Hget He'].
      destruct (getController e) as [c e1]. cbn [fst snd] in *.
      destruct (IH e1 He') as [Hgot He2].
      destruct (runOps ops e1) as [got e2]. cbn [fst snd] in *.
      split; [constructor; assumption | exact He2].
    + apply IH, pristine_putController, He.
    + destruct (pristine_getRequest e He) as [Hget He'].
      destruct (getRequest e) as [r e1]. cbn [fst snd] in *.
      destruct (IH e1 He') as [Hgot He2].
      destruct (runOps ops e1) as [got e2]. cbn [fst snd] in *.
      split; [constructor; assumption | exact He2].
    + apply IH, pristine_putRequest, He.
    + destruct (pristine_getBuffer e He) as [Hget He'].
      destruct (getBuffer e) as [b e1]. cbn [fst snd] in *.
      destruct (IH e1 He') as [Hgot He2].
      destruct (runOps ops e1) as [got e2]. cbn [fst snd] in *.
      split; [constructor; assumption | exact He2].
    + apply IH, pristine_putBuffer, He.
Qed.

Lemma Put_room {A} (x : A) (p : pool.Pool A) :
  (length (pool.items p) < pool.size p)%nat ->
  pool.items (pool.Put x p) = pool.items p ++ [x].
Proof.
  intros H. unfold pool.Put. apply Nat.ltb_lt in H. rewrite H. reflexivity.
Qed.

(** Release on an empty reservoir with room, then acquire: the object
    released is the one handed out, and the reservoir is empty again. *)
Lemma Get_Put_empty {A} (x : A) (p : pool.Pool A) :
  pool.items p = [] -> (0 < pool.size p)%nat ->
  fst (pool.Get (pool.Put x p)) = x /\
  pool.items (snd (pool.Get (pool.Put x p))) = [].
Proof.
  intros Hitems Hsize. unfold pool.Get.
  rewrite Put_room by (rewrite Hitems; exact Hsize).
  rewrite Hitems. split; reflexivity.
Qed.

(** C6. On the engine's pools, whatever the sequence of acquire and
    release operations and whatever the state of the objects released,
    every object acquired equals a freshly constructed one.  Release resets
    the object and then puts it back: a reservoir with room holds, after the
    release, what it held and the object as reset, which is fresh; and on an
    empty reservoir a release followed by an acquire hands out that very
    object, reset, and leaves the reservoir empty again, so that the object
    is reused and shows none of its former fields. *)
Theorem pooled_objects_come_back_fresh (ops : list PoolOp) (o : Pooled) (e : engine) :
  Forall fresh (fst (runOps ops newEngine)) /\
  fresh (reset o) /\
  ((length (reservoir o e) < capacity o e)%nat ->
   reservoir o (snd (runOps [releaseOp o] e)) = reservoir o e ++ [reset o]) /\
  (reservoir o e = [] -> (0 < capacity o e)%nat ->
   fst (runOps [releaseOp o; acquireOp o] e) = [reset o] /\
   reservoir o (snd (runOps [releaseOp o; acquireOp o] e)) = []).
Proof.
  split; [apply runOps_fresh, pristine_newEngine|].
  split; [destruct o; reflexivity|].
  split.
  - intros Hroom.
    destruct o as [c|r|b]; cbn [reservoir capacity] in *; rewrite length_map in Hroom;
      cbn [releaseOp runOps snd reset];
      unfold putController, putRequest, putBuffer; cbn [snd cPool rPool bPool];
      rewrite Put_room by exact Hroom; rewrite map_app; reflexivity.
  - intros Hempty Hsize.
    destruct o as [c|r|b]; cbn [reservoir capacity] in *;
      apply map_eq_nil in Hempty;
      cbn [releaseOp acquireOp runOps reset];
      unfold putController, putRequest, putBuffer, getController, getRequest, getBuffer;
      cbn [snd cPool rPool bPool].
    + destruct (Get_Put_empty (Controller_Reset c) (cPool e) Hempty Hsize) as [Hget Hleft].
      destruct (pool.Get (pool.Put (Controller_Reset c) (cPool e))) as [c' p'].
      cbn [fst snd cPool] in *. subst c'. rewrite Hleft. split; reflexivity.
    + destruct (Get_Put_empty (ahttp.Reset r) (rPool e) Hempty Hsize) as [Hget Hleft].
      destruct (pool.Get (pool.Put (ahttp.Reset r) (rPool e))) as [r' p'].
      cbn [fst snd rPool] in *. subst r'. rewrite Hleft. split; reflexivity.
    + destruct (Get_Put_empty (Buffer_Reset b) (bPool e) Hempty Hsize) as [Hget Hleft].
      destruct (pool.Get (pool.Put (Buffer_Reset b) (bPool e))) as [b' p'].
      cbn [fst snd bPool] in *. subst b'. rewrite Hleft. split; reflexivity.
Qed.

Lemma pooled_objects_come_back_fresh_witness :
  reservoir (AController usedController)
    (snd (runOps [ReleaseController usedController] newEngine))
    = [AController zeroController] /\
  fst (runOps [ReleaseController usedController; AcquireController] newEngine)
    = [AController zeroController] /\
  reservoir (AController usedController)
    (snd (runOps [ReleaseController usedController; AcquireController] newEngine)) = [].
Proof.
  destruct (pooled_objects_come_back_fresh [] (AController usedController) newEngine)
    as (_ & _ & Hput & Hreuse).
  split; [apply Hput; cbn; lia|].
  apply Hreuse; [reflexivity | cbn; lia].
Defined.

Example reuse_after_a_request :
  fst (runOps [ReleaseController usedController; ReleaseRequest usedRequest;
               ReleaseBuffer "hello bob"; AcquireController; AcquireRequest;
               AcquireBuffer; AcquireBuffer] newEngine)
  = [AController zeroController; ARequest ahttp.zero; ABuffer ""; ABuffer ""].
Proof. reflexivity. Qed.

(** ** ServeHTTP *)

Lemma cleanBuffers_same_bPool e e' :
  bPool e' = bPool e -> cleanBuffers e -> cleanBuffers e'.
Proof. unfold cleanBuffers. intros ->. trivial. Qed.



Section ServeHTTP.
Context (E : Env).

Lemma setDefaults_eq e c r w lg q :
  Req c = Some q ->
  setDefaults E (mkWorld e c r w lg)
  = (Return tt, mkWorld e c (h_r (entryHeap E c r w)) w lg).
Proof.
  intros Hreq. unfold setDefaults. step. cbn [entryHeap h_r].
  destruct (ahttp.Locale_ r); [reflexivity|].
  erewrite Req_update_eq by eassumption. reflexivity.
Qed.

Lemma parseRequest_eq req e c r w lg r1 :
  ParseRequest E req r = (Return tt, r1) ->
  parseRequest E req (mkWorld e c r w lg)
  = (Return tt, mkWorld e (set_Req (Some addr) c) r1 w lg).
Proof. intros H. unfold parseRequest. cbn [heap h_r]. rewrite H. reflexivity. Qed.



End ServeHTTP.

(** * Further properties of engine.go *)

(** ** Engine code and the pools, in general *)

Section Respects.
Context (R : engine -> engine -> Prop) `{!PreOrder R}.

Lemma respects_ret {A} (a : A) : respects R (ret a).
Proof. intros W. reflexivity. Qed.

Lemma respects_panic {A} v : respects R (@panic A v).
Proof. intros W. reflexivity. Qed.

Lemma respects_bind {A B} (m : M A) (k : A -> M B) :
  respects R m -> (forall a, respects R (k a)) -> respects R (bind m k).
Proof.
  intros Hm Hk W. unfold bind. specialize (Hm W).
  destruct (m W) as [[a|v|] W1]; cbn [snd] in *; [|exact Hm..].
  etransitivity; [exact Hm | apply Hk].
Qed.

Lemma respects_defer {A} (d : M unit) (body : M A) :
  respects R d -> respects R body -> respects R (defer d body).
Proof.
  intros Hd Hb W. unfold defer. specialize (Hb W).
  destruct (body W) as [res W1]. specialize (Hd W1). cbn [snd] in *.
  destruct (d W1) as [[u|v|] W2]; cbn [snd] in *; etransitivity; eassumption.
Qed.

Lemma respects_defer_recover (d : option PanicValue -> M unit) (body : M unit) :
  (forall r, respects R (d r)) -> respects R body -> respects R (defer_recover d body).
Proof.
  intros Hd Hb W. unfold defer_recover. specialize (Hb W).
  destruct (body W) as [[u|v|] W1]; cbn [snd] in *;
    (etransitivity; [exact Hb | apply Hd]).
Qed.

Lemma respects_modify_heap f : respects R (modify_heap f).
Proof. intros W. reflexivity. Qed.

Lemma respects_user f : respects R (user f).
Proof. intros W. unfold user. destruct (f (heap W)). reflexivity. Qed.

Lemma respects_log l txt : respects R (log l txt).
Proof. intros W. reflexivity. Qed.

Lemma respects_Req : respects R Req_.
Proof. intros W. unfold Req_. destruct (Req _); reflexivity. Qed.

Lemma respects_Res f : respects R (Res_ f).
Proof. intros W. unfold Res_. destruct (Res _); reflexivity. Qed.

Lemma respects_Reply : respects R Reply.
Proof. intros W. reflexivity. Qed.

Lemma respects_Reply_update f : respects R (Reply_update f).
Proof. intros W. unfold Reply_update. destruct (reply _); reflexivity. Qed.

Lemma respects_deref {A} (o : option A) : respects R (deref o).
Proof. destruct o; [apply respects_ret | apply respects_panic]. Qed.

Lemma respects_forM {A} (l : list A) (f : A -> M unit) :
  (forall a, respects R (f a)) -> respects R (forM_ l f).
Proof.
  intros Hf. induction l as [|a l IH]; [apply respects_ret|].
  cbn [forM_]. apply respects_bind; [apply Hf | intros _; exact IH].
Qed.

Lemma respects_Req_update f : respects R (Req_update f).
Proof.
  unfold Req_update. apply respects_bind;
    [apply respects_Req | intros _; apply respects_modify_heap].
Qed.

Lemma respects_c_setTarget E route : respects R (c_setTarget E route).
Proof. intros W. unfold c_setTarget. destruct (setTarget E route _). reflexivity. Qed.

Lemma respects_parseRequest E req : respects R (parseRequest E req).
Proof.
  intros W. unfold parseRequest.
  destruct (ParseRequest E req (h_r (heap W))) as [[u|v|] r]; reflexivity.
Qed.

End Respects.

(** Engine code built from calls that respect [R] respects [R]; what is
    known of the other calls is taken from the context. *)
Ltac respects :=
  repeat first
    [ assumption
    | match goal with |- PreOrder _ => exact _ end
    | apply respects_ret | apply respects_panic | apply respects_modify_heap
    | apply respects_user | apply respects_log | apply respects_Req
    | apply respects_Res | apply respects_Reply | apply respects_Reply_update
    | apply respects_deref | apply respects_Req_update
    | apply respects_c_setTarget | apply respects_parseRequest
    | match goal with H : forall x, respects _ (?f x) |- respects _ (?f _) => apply H end
    | match goal with
      | H : forall x y, respects _ (?f x y) |- respects _ (?f _ _) => apply H
      end
    | apply respects_bind; try (match goal with |- PreOrder _ => exact _ end);
        [|intros ?]
    | apply respects_defer; try (match goal with |- PreOrder _ => exact _ end)
    | apply respects_defer_recover; try (match goal with |- PreOrder _ => exact _ end);
        [intros ?|]
    | apply respects_forM; try (match goal with |- PreOrder _ => exact _ end);
        intros ?
    | match goal with
      | |- respects _ (if ?b then _ else _) => destruct b
      | |- respects _ (match ?x with _ => _ end) => destruct x
      end ].

#[local] Instance sameEngine_preorder : PreOrder sameEngine.
Proof.
  split; [intros e; reflexivity|].
  intros e1 e2 e3 H12 H23. unfold sameEngine in *. congruence.
Qed.

#[local] Instance staysClean_preorder : PreOrder staysClean.
Proof.
  split; [intros e H; exact H|].
  intros e1 e2 e3 H12 H23 H. apply H23, H12, H.
Qed.

Lemma buffersTaken_app ks ks' :
  buffersTaken (ks ++ ks') = (buffersTaken ks + buffersTaken ks')%nat.
Proof. unfold buffersTaken. rewrite List.filter_app, length_app. reflexivity. Qed.

Lemma buffersGiven_app ks ks' :
  buffersGiven (ks ++ ks') = (buffersGiven ks + buffersGiven ks')%nat.
Proof. unfold buffersGiven. rewrite List.filter_app, length_app. reflexivity. Qed.

#[local] Instance buffersBalanced_preorder : PreOrder buffersBalanced.
Proof.
  split.
  - intros e. exists []. rewrite app_nil_r. split; reflexivity.
  - intros e1 e2 e3 (ks1 & H1 & B1) (ks2 & H2 & B2).
    exists (ks1 ++ ks2). split.
    + rewrite H2, H1, app_assoc. reflexivity.
    + rewrite buffersTaken_app, buffersGiven_app, B1, B2. reflexivity.
Qed.

(** The part of [writeResponse] under its deferred [putBuffer] does not
    touch the engine. *)
Lemma sameEngine_WriteTo buf : respects sameEngine (WriteTo buf).
Proof. unfold WriteTo. respects. Qed.

Lemma sameEngine_writeReply rp buf : respects sameEngine (writeReply rp buf).
Proof. unfold writeReply. pose proof sameEngine_WriteTo. respects. Qed.

Lemma writeResponse_engine (W : World) :
  eng (snd (writeResponse W)) = bufferCycle (eng W).
Proof.
  rewrite (World_eta W). cbn [eng]. unfold writeResponse. do 2 step.
  unfold defer.
  match goal with
  | |- context [?body (mkWorld ?e1 ?c ?r ?w ?lg)] =>
      assert (Hsame : respects sameEngine body);
      [| specialize (Hsame (mkWorld e1 c r w lg));
         destruct (body (mkWorld e1 c r w lg)) as [res W1] ]
  end.
  { pose proof sameEngine_writeReply. respects. }
  cbn [snd eng] in Hsame. unfold sameEngine in Hsame.
  destruct W1 as [e1 h1 lg1]. cbn [eng] in Hsame. subst e1. reflexivity.
Qed.

(** X1. On every path through [writeResponse] (a reply that renders, a
    render error, a panicking renderer, a missing reply or writer) the
    scratch buffer is taken once and given back once, reset; the Controller
    and Request pools are not touched. *)
Theorem writeResponse_always_releases_buffer (W : World) :
  history (eng (snd (writeResponse W)))
    = history (eng W) ++ [GetBuffer; PutBuffer ""] /\
  bPool (eng (snd (writeResponse W)))
    = pool.Put "" (snd (pool.Get (bPool (eng W)))) /\
  cPool (eng (snd (writeResponse W))) = cPool (eng W) /\
  rPool (eng (snd (writeResponse W))) = rPool (eng W).
Proof.
  rewrite writeResponse_engine. split; [apply history_bufferCycle|].
  unfold bufferCycle, putBuffer, getBuffer.
  destruct (pool.Get (bPool (eng W))) as [b p]. repeat split.
Qed.

(** ** Scratch buffers over a whole request *)

Lemma balanced_writeResponse : respects buffersBalanced writeResponse.
Proof.
  intros W. exists [GetBuffer; PutBuffer ""].
  rewrite writeResponse_engine. split; [apply history_bufferCycle | reflexivity].
Qed.

(** A buffer taken, a deferred [putBuffer], and a body that is balanced. *)
Lemma balanced_scoped (body : Buffer -> M unit) :
  (forall b, respects buffersBalanced (body b)) ->
  respects buffersBalanced (bind e_getBuffer (fun buf => defer (e_putBuffer buf) (body buf))).
Proof.
  intros Hbody W. rewrite (World_eta W). cbn [eng]. step. unfold defer.
  match goal with
  | |- context [body ?b ?W0] =>
      specialize (Hbody b W0); destruct (body b W0) as [res W1]
  end.
  cbn [snd eng] in Hbody. destruct Hbody as (ks & Hks & Hbal).
  destruct W1 as [e1 h1 lg1]. cbn [eng] in Hks. cbn.
  exists ([GetBuffer] ++ ks ++ [PutBuffer ""]). split.
  - rewrite Hks, history_getBuffer, <- !app_assoc. reflexivity.
  - rewrite !buffersTaken_app, !buffersGiven_app, Hbal. cbn. lia.
Qed.

Lemma balanced_handleRecovery E r : respects buffersBalanced (handleRecovery E r).
Proof.
  unfold handleRecovery. pose proof balanced_writeResponse.
  destruct r as [v|]; [|respects].
  apply respects_bind; [exact _ | respects |]. intros req.
  apply respects_bind; [exact _ | respects |]. intros _.
  apply balanced_scoped. intros b. respects.
Qed.

Lemma balanced_ServeHTTP (E : Env) (w : http.ResponseWriter) (req : http.Request)
    (e : engine) :
  buffersBalanced e (eng (snd (ServeHTTP E w req e))).
Proof.
  unfold ServeHTTP, getController, getRequest.
  destruct (pool.Get (cPool e)) as [c0 cp].
  cbn [rPool cPool bPool history].
  destruct (pool.Get (rPool e)) as [r0 rp].
  cbn [rPool cPool bPool history snd].
  match goal with
  | |- context [defer _ ?body ?W0] =>
      assert (Hbody : buffersBalanced (eng W0) (eng (snd (body W0))));
      [| unfold defer; destruct (body W0) as [res W1] ]
  end.
  { match goal with |- buffersBalanced _ (eng (snd (?body ?W0))) =>
      assert (Hk : respects buffersBalanced body); [|exact (Hk W0)] end.
    pose proof (balanced_handleRecovery E). pose proof balanced_writeResponse.
    unfold setDefaults, executeMiddlewares. respects. }
  cbn [eng snd] in Hbody. destruct Hbody as (ks & Hh & Hks).
  cbn [history] in Hh.
  destruct W1 as [e1 [c1 r1 w1] lg1]. cbn [eng] in *.
  exists ([GetController; GetRequest] ++ ks
          ++ [PutRequest ahttp.zero; PutController zeroController]).
  split.
  - cbn. rewrite Hh, <- !app_assoc. reflexivity.
  - rewrite !buffersTaken_app, !buffersGiven_app, Hks. cbn. lia.
Qed.

(** X2. Whatever the collaborators do and however the request ends (a
    return or a panic, in the chain, in the renderer or in the recovery
    itself), every scratch buffer [ServeHTTP] takes from the pool is given
    back: the pool calls of the request hold as many [putBuffer] as
    [getBuffer]. *)
Theorem ServeHTTP_gives_back_every_buffer (E : Env) (w : http.ResponseWriter)
    (req : http.Request) (e : engine) :
  exists ks,
    history (eng (snd (ServeHTTP E w req e))) = history e ++ ks /\
    buffersTaken ks = buffersGiven ks.
Proof. exact (balanced_ServeHTTP E w req e). Qed.

Lemma staysClean_e_getBuffer : respects staysClean e_getBuffer.
Proof.
  intros W H. unfold e_getBuffer.
  pose proof (getBuffer_clean (eng W) H) as [_ Hc].
  destruct (getBuffer (eng W)). exact Hc.
Qed.

Lemma staysClean_e_putBuffer b : respects staysClean (e_putBuffer b).
Proof. intros W H. apply putBuffer_clean, H. Qed.

Lemma staysClean_writeResponse : respects staysClean writeResponse.
Proof.
  unfold writeResponse, writeReply, WriteTo.
  pose proof staysClean_e_getBuffer. pose proof staysClean_e_putBuffer. respects.
Qed.

Lemma staysClean_handleRecovery E r : respects staysClean (handleRecovery E r).
Proof.
  unfold handleRecovery.
  pose proof staysClean_e_getBuffer. pose proof staysClean_e_putBuffer.
  pose proof staysClean_writeResponse. respects.
Qed.

Lemma staysClean_ServeHTTP (E : Env) (w : http.ResponseWriter) (req : http.Request)
    (e : engine) :
  staysClean e (eng (snd (ServeHTTP E w req e))).
Proof.
  unfold ServeHTTP, getController, getRequest.
  destruct (pool.Get (cPool e)) as [c0 cp].
  cbn [rPool cPool bPool history].
  destruct (pool.Get (rPool e)) as [r0 rp].
  cbn [rPool cPool bPool history snd].
  intros Hclean.
  match goal with
  | |- context [defer _ ?body ?W0] =>
      assert (Hbody : staysClean (eng W0) (eng (snd (body W0))));
      [| unfold defer; destruct (body W0) as [res W1] ]
  end.
  { match goal with |- staysClean _ (eng (snd (?body ?W0))) =>
      assert (Hk : respects staysClean body); [|exact (Hk W0)] end.
    pose proof (staysClean_handleRecovery E). pose proof staysClean_writeResponse.
    unfold setDefaults, executeMiddlewares. respects. }
  cbn [eng snd] in Hbody. specialize (Hbody Hclean).
  destruct W1 as [e1 [c1 r1 w1] lg1]. cbn [eng] in *.
  exact Hbody.
Qed.

(** X3. If every buffer the pool can hand out is empty when a request
    comes in, the same holds when [ServeHTTP] is done with it, whatever the
    collaborators do and however the request ends: no request leaves bytes
    behind for the next one. *)
Theorem ServeHTTP_keeps_buffers_clean (E : Env) (w : http.ResponseWriter)
    (req : http.Request) (e : engine) :
  cleanBuffers e -> cleanBuffers (eng (snd (ServeHTTP E w req e))).
Proof. exact (staysClean_ServeHTTP E w req e). Qed.

Lemma ServeHTTP_keeps_buffers_clean_witness :
  cleanBuffers (eng (snd (ServeHTTP crashEnv emptyWriter getFoo newEngine))).
Proof.
  apply (ServeHTTP_keeps_buffers_clean crashEnv emptyWriter getFoo newEngine).
  split; [constructor | reflexivity].
Defined.

(** ** One engine, many requests *)

Lemma serveAll_snoc E reqs wr e :
  serveAll E (reqs ++ [wr]) e
  = eng (snd (ServeHTTP E (fst wr) (snd wr) (serveAll E reqs e))).
Proof. unfold serveAll. rewrite foldl_app. reflexivity. Qed.

(** X16. The engine that [newEngine] builds hands out empty buffers only,
    and keeps doing so for its whole life: after any run of requests served
    one after the other, whatever the collaborators did and however each
    request ended, every buffer the pool can hand out is empty, and over the
    whole run as many scratch buffers were given back as were taken. *)
Theorem newEngine_buffers_stay_clean (E : Env)
    (reqs : list (http.ResponseWriter * http.Request)) :
  cleanBuffers (serveAll E reqs newEngine) /\
  buffersTaken (history (serveAll E reqs newEngine))
    = buffersGiven (history (serveAll E reqs newEngine)).
Proof.
  induction reqs as [|wr reqs IH] using rev_ind.
  - split; [split; [constructor | reflexivity] | reflexivity].
  - rewrite serveAll_snoc. destruct IH as [Hclean Hbal]. split.
    + apply staysClean_ServeHTTP, Hclean.
    + destruct (balanced_ServeHTTP E (fst wr) (snd wr) (serveAll E reqs newEngine))
        as (ks & -> & Hks).
      rewrite buffersTaken_app, buffersGiven_app, Hbal, Hks. reflexivity.
Qed.

(** ** The one response of a request *)





(** ** The headers writeResponse copies *)

Example CanonicalMIMEHeaderKey_samples :
  textproto.CanonicalMIMEHeaderKey "content-type" = "Content-Type" /\
  textproto.CanonicalMIMEHeaderKey "x-request-ID" = "X-Request-Id" /\
  textproto.CanonicalMIMEHeaderKey "Set-Cookie" = "Set-Cookie" /\
  textproto.CanonicalMIMEHeaderKey "my key" = "my key".
Proof. repeat split. Qed.

Lemma mergeAt_app (o : option (list string)) (v1 v2 : list string) :
  mergeAt (mergeAt o v1) v2 = mergeAt o (v1 ++ v2).
Proof.
  destruct v1 as [|x v1]; [reflexivity|].
  destruct v2 as [|y v2]; [rewrite app_nil_r; reflexivity|].
  unfold mergeAt. cbn [from_option id app]. rewrite <- app_assoc. reflexivity.
Qed.

Lemma addValues_lookup k (v : list string) (h : gmap string (list string)) :
  foldl (fun h vv => http.Add k vv h) h v !! textproto.CanonicalMIMEHeaderKey k
  = mergeAt (h !! textproto.CanonicalMIMEHeaderKey k) v.
Proof.
  revert h. induction v as [|x v IH]; intros h; [reflexivity|].
  cbn [foldl]. rewrite IH. unfold http.Add at 1. cbv zeta. rewrite lookup_insert_eq.
  destruct v as [|y v]; [reflexivity|].
  unfold mergeAt. cbn [from_option id]. rewrite <- app_assoc. reflexivity.
Qed.

Lemma addValues_lookup_ne k k' (v : list string) (h : gmap string (list string)) :
  textproto.CanonicalMIMEHeaderKey k' <> k ->
  foldl (fun h vv => http.Add k' vv h) h v !! k = h !! k.
Proof.
  intros Hne. revert h. induction v as [|x v IH]; intros h; [reflexivity|].
  cbn [foldl]. rewrite IH. unfold http.Add. cbv zeta. apply lookup_insert_ne. done.
Qed.

Lemma addAll_lookup (l : list (string * list string)) (h : gmap string (list string)) k :
  addAll l h !! k = mergeAt (h !! k) (valuesFor k l).
Proof.
  unfold valuesFor. revert h. induction l as [|[k' v] l IH]; intros h; [reflexivity|].
  unfold addAll in *. cbn [foldl fst snd]. rewrite IH.
  destruct (decide (textproto.CanonicalMIMEHeaderKey k' = k)) as [Heq|Hne].
  - rewrite filter_cons_True by exact Heq. cbn [flat_map snd].
    rewrite <- Heq at 1 2. rewrite addValues_lookup, Heq. apply mergeAt_app.
  - rewrite filter_cons_False by exact Hne.
    rewrite (addValues_lookup_ne k k' v h Hne). reflexivity.
Qed.

(** The entries of a map with canonical keys: the values for [k] are the
    values of the entry [k]. *)
Lemma valuesFor_canonical (l : list (string * list string)) k :
  Forall (fun kv => textproto.CanonicalMIMEHeaderKey (fst kv) = fst kv) l ->
  NoDup l.*1 ->
  valuesFor k l = default [] ((list_to_map l : gmap string (list string)) !! k).
Proof.
  unfold valuesFor. induction l as [|[k' v] l IH]; intros Hcan Hnd; [reflexivity|].
  apply Forall_cons in Hcan as [Hk' Hcan]. apply NoDup_cons in Hnd as [Hnotin Hnd].
  cbn [fst] in Hk'. cbn [list_to_map foldr].
  destruct (decide (k' = k)) as [->|Hne].
  - rewrite filter_cons_True by exact Hk'. cbn [flat_map snd].
    rewrite (IH Hcan Hnd), (not_elem_of_list_to_map_1 l k Hnotin).
    rewrite lookup_insert_eq. cbn. apply app_nil_r.
  - rewrite filter_cons_False by (cbn [fst]; congruence).
    rewrite lookup_insert_ne by done. apply IH; assumption.
Qed.

Lemma copyHeaders_lookup (hdr h : gmap string (list string)) k :
  canonicalKeys hdr ->
  copyHeaders hdr h !! k
  = match hdr !! k with
    | Some (x :: v) => Some (default [] (h !! k) ++ x :: v)
    | _ => h !! k
    end.
Proof.
  intros Hcan. unfold copyHeaders. rewrite addAll_lookup.
  rewrite valuesFor_canonical.
  - rewrite list_to_map_to_list.
    destruct (hdr !! k) as [[|x v]|]; reflexivity.
  - apply Forall_forall. intros [k' v] Hin. cbn [fst].
    apply Hcan. exists v. apply elem_of_map_to_list. exact Hin.
  - apply NoDup_fst_map_to_list.
Qed.

(** X4. A reply that renders successfully, and a header key [k] other
    than Content-Type.  [Header.Add] works on the canonical form of the key,
    so the writer's entry for [k] becomes its former values followed by the
    values of the reply's entries whose key has the canonical form [k],
    entry after entry in the order in which the map is ranged over (an entry
    without values adds nothing).  When the keys of the reply are canonical
    that is: the values the reply carries for [k] are appended, in order,
    after the values the writer already had, and a key the reply does not
    carry is left as it was.  Headers are added, never replaced. *)
Theorem writeResponse_appends_headers (W : World) (rp : reply.Reply)
    (p : ptr http.ResponseWriter) (body : Buffer) (k : string) :
  reply (h_c (heap W)) = Some rp ->
  Res (h_c (heap W)) = Some p ->
  rendered rp (fst (getBuffer (eng W))) = Some body ->
  k <> ahttp.HeaderContentType ->
  (exists entries,
     entries ≡ₚ map_to_list (reply.Hdr rp) /\
     http.Header (h_w (heap (snd (writeResponse W)))) !! k
     = mergeAt (http.Header (h_w (heap W)) !! k) (valuesFor k entries)) /\
  (canonicalKeys (reply.Hdr rp) ->
   http.Header (h_w (heap (snd (writeResponse W)))) !! k
   = match reply.Hdr rp !! k with
     | Some (x :: v) => Some (default [] (http.Header (h_w (heap W)) !! k) ++ x :: v)
     | _ => http.Header (h_w (heap W)) !! k
     end).
Proof.
  intros Hrp Hres Hrd Hk. rewrite (World_eta W).
  erewrite writeResponse_ok by eassumption.
  cbn [snd heap h_w http.Header]. unfold http.Set_.
  rewrite lookup_insert_ne by (intros Heq; apply Hk; rewrite <- Heq; reflexivity).
  split.
  - exists (map_to_list (reply.Hdr rp)). split; [reflexivity|]. apply addAll_lookup.
  - intros Hcan. apply copyHeaders_lookup, Hcan.
Qed.

Lemma writeResponse_appends_headers_witness :
  http.Header (h_w (heap (snd (writeResponse cookieWorld)))) !! "Set-Cookie"
    = Some ["a=1"; "b=2"; "c=3"] /\
  http.Header (h_w (heap (snd (writeResponse cookieWorld)))) !! "Vary"
    = Some ["Accept"] /\
  http.Header (h_w (heap (snd (writeResponse lowerCaseWorld)))) !! "Set-Cookie"
    = Some ["a=1"; "b=2"] /\
  http.Header (h_w (heap (snd (writeResponse lowerCaseWorld)))) !! "set-cookie"
    = None.
Proof.
  assert (Hcan : canonicalKeys (reply.Hdr cookieReply)).
  { intros k [v Hk]. unfold cookieReply in Hk. cbn [reply.Hdr] in Hk.
    apply lookup_insert_Some in Hk as [[<- _]|[_ Hk]]; [reflexivity|].
    apply lookup_singleton_Some in Hk as [<- _]. reflexivity. }
  split; [|split; [|split]].
  - destruct (writeResponse_appends_headers cookieWorld cookieReply addr "" "Set-Cookie"
                eq_refl eq_refl eq_refl ltac:(discriminate)) as [_ Hk].
    rewrite (Hk Hcan). reflexivity.
  - destruct (writeResponse_appends_headers cookieWorld cookieReply addr "" "Vary"
                eq_refl eq_refl eq_refl ltac:(discriminate)) as [_ Hk].
    rewrite (Hk Hcan). reflexivity.
  - destruct (writeResponse_appends_headers lowerCaseWorld lowerCaseReply addr ""
                "Set-Cookie" eq_refl eq_refl eq_refl ltac:(discriminate))
      as [(entries & Hperm & Hk) _].
    unfold lowerCaseReply in Hperm. cbn [reply.Hdr] in Hperm.
    rewrite map_to_list_singleton in Hperm.
    apply Permutation_singleton_r in Hperm. subst entries.
    rewrite Hk. reflexivity.
  - destruct (writeResponse_appends_headers lowerCaseWorld lowerCaseReply addr ""
                "set-cookie" eq_refl eq_refl eq_refl ltac:(discriminate))
      as [(entries & Hperm & Hk) _].
    unfold lowerCaseReply in Hperm. cbn [reply.Hdr] in Hperm.
    rewrite map_to_list_singleton in Hperm.
    apply Permutation_singleton_r in Hperm. subst entries.
    rewrite Hk. reflexivity.
Defined.

(** X5. The response [handleRecovery] synthesizes is written from the
    reply of the context, not from a new one.  With the reply builder as the
    specification has it ([Status] and [Text] set the status and the body
    and leave the accumulated headers alone), the headers the reply had
    accumulated before the panic go out with the 500 response, appended to
    the writer's as in [writeResponse], and they stay in the reply. *)
Theorem handleRecovery_keeps_reply_headers (E : Env) (v : PanicValue) (W : World)
    (rp : reply.Reply) (q : ptr ahttp.Request) (p : ptr http.ResponseWriter)
    (k : string) :
  Req (h_c (heap W)) = Some q ->
  Res (h_c (heap W)) = Some p ->
  reply (h_c (heap W)) = Some rp ->
  cleanBuffers (eng W) ->
  canonicalKeys (reply.Hdr rp) ->
  k <> ahttp.HeaderContentType ->
  http.Header (h_w (heap (snd (handleRecovery E (Some v) W)))) !! k
  = match reply.Hdr rp !! k with
    | Some (x :: vs) => Some (default [] (http.Header (h_w (heap W)) !! k) ++ x :: vs)
    | _ => http.Header (h_w (heap W)) !! k
    end /\
  exists rp',
    reply (h_c (heap (snd (handleRecovery E (Some v) W)))) = Some rp' /\
    reply.Hdr rp' = reply.Hdr rp.
Proof.
  intros Hreq Hres Hrp Hclean Hcan Hk. rewrite (World_eta W).
  erewrite handleRecovery_eq by eassumption.
  cbn [snd heap h_w h_c http.Header reply set_reply]. unfold http.Set_.
  split.
  - rewrite lookup_insert_ne by (intros Heq; apply Hk; rewrite <- Heq; reflexivity).
    apply copyHeaders_lookup, Hcan.
  - eexists. split; reflexivity.
Qed.

Lemma handleRecovery_keeps_reply_headers_witness :
  http.Header (h_w (heap (snd (handleRecovery prodEnv (Some "boom") cookieWorld))))
    !! "Set-Cookie" = Some ["a=1"; "b=2"; "c=3"].
Proof.
  assert (Hclean : cleanBuffers newEngine) by (split; [constructor | reflexivity]).
  assert (Hcan : canonicalKeys (reply.Hdr cookieReply)).
  { intros k [v Hk]. unfold cookieReply in Hk. cbn [reply.Hdr] in Hk.
    apply lookup_insert_Some in Hk as [[<- _]|[_ Hk]]; [reflexivity|].
    apply lookup_singleton_Some in Hk as [<- _]. reflexivity. }
  destruct (handleRecovery_keeps_reply_headers prodEnv "boom" cookieWorld cookieReply
              addr addr "Set-Cookie" eq_refl eq_refl eq_refl Hclean Hcan
              ltac:(discriminate)) as (Hk & _).
  etransitivity; [exact Hk | reflexivity].
Defined.

(** ** setDefaults and the empty middleware chain *)

(** X6. [setDefaults] on a context that holds its request view: a locale
    already resolved is never overwritten (nothing changes at all); a missing
    locale becomes the configured [i18n.default], and "en" when the
    configuration has no such key; the method, the path and the raw request
    of the view, the Controller and the writer are left alone, and running
    [setDefaults] a second time changes nothing more. *)
Theorem setDefaults_fills_missing_locale_only (E : Env) (W : World)
    (q : ptr ahttp.Request) :
  Req (h_c (heap W)) = Some q ->
  fst (setDefaults E W) = Return tt /\
  (forall l, ahttp.Locale_ (h_r (heap W)) = Some l -> snd (setDefaults E W) = W) /\
  (ahttp.Locale_ (h_r (heap W)) = None ->
   ahttp.Locale_ (h_r (heap (snd (setDefaults E W))))
     = Some (ahttp.NewLocale (default "en" (appConfig E !! "i18n.default")))) /\
  (ahttp.Method (h_r (heap (snd (setDefaults E W)))) = ahttp.Method (h_r (heap W)) /\
   ahttp.Path (h_r (heap (snd (setDefaults E W)))) = ahttp.Path (h_r (heap W)) /\
   ahttp.Raw (h_r (heap (snd (setDefaults E W)))) = ahttp.Raw (h_r (heap W)) /\
   h_c (heap (snd (setDefaults E W))) = h_c (heap W) /\
   h_w (heap (snd (setDefaults E W))) = h_w (heap W)) /\
  snd (setDefaults E (snd (setDefaults E W))) = snd (setDefaults E W).
Proof.
  intros Hreq. rewrite (World_eta W). cbn [heap h_c h_r h_w] in *.
  erewrite setDefaults_eq by eassumption. cbn [fst snd heap h_c h_r h_w entryHeap].
  split; [reflexivity|]. split; [|split; [|split]].
  - intros l Hl. rewrite Hl. destruct (h_r (heap W)). cbn in Hl. subst. reflexivity.
  - intros Hnone. rewrite Hnone. reflexivity.
  - destruct (ahttp.Locale_ (h_r (heap W))); repeat split.
  - erewrite setDefaults_eq by eassumption. cbn [snd entryHeap h_r].
    destruct (ahttp.Locale_ (h_r (heap W))) eqn:Hl.
    + rewrite Hl. reflexivity.
    + reflexivity.
Qed.

Lemma setDefaults_fills_missing_locale_only_witness :
  ahttp.Locale_ (h_r (heap (snd (setDefaults devEnv (requestFor "GET" "/foo")))))
    = Some (ahttp.NewLocale "en").
Proof.
  destruct (setDefaults_fills_missing_locale_only devEnv (requestFor "GET" "/foo") addr
              eq_refl) as (_ & _ & Hnone & _).
  apply Hnone. reflexivity.
Defined.

(** X7. With no middleware stage configured, [mwChain[0]] is out of range:
    the panic is intercepted by the recovery guard, so that [ServeHTTP]
    still returns normally and the client gets the status 500 with the
    recovery body; nothing else is put on the wire. *)
Theorem ServeHTTP_empty_chain_answers_500 (E : Env) (w : http.ResponseWriter)
    (req : http.Request) (e : engine) (r1 : ahttp.Request) :
  ParseRequest E req (fst (getRequest (snd (getController e)))) = (Return tt, r1) ->
  mwChain E = [] ->
  cleanBuffers e ->
  (forall h, http.calls (h_w (close E h)) = http.calls (h_w h)) ->
  fst (ServeHTTP E w req e) = Return tt /\
  http.calls (h_w (heap (snd (ServeHTTP E w req e))))
    = http.calls w
      ++ [http.WriteHeader 500; http.Write (recoveryBody E indexOutOfRange)].
Proof.
  unfold ServeHTTP.
  assert (Hbp : bPool (snd (getRequest (snd (getController e)))) = bPool e).
  { unfold getRequest, getController.
    destruct (pool.Get (cPool e)). cbn [snd rPool].
    destruct (pool.Get (rPool e)). reflexivity. }
  destruct (getController e) as [c0 e1]. cbn [fst snd] in *.
  destruct (getRequest e1) as [r0 e2]. cbn [fst snd] in *.
  intros Hparse Hchain Hclean Hclose.
  apply (cleanBuffers_same_bPool _ _ Hbp) in Hclean.
  assert (Hguard : exists W',
    defer_recover (handleRecovery E)
      (let* req := Req_ in
       log DEBUG [str "Request %s"; str (ahttp.Path req)];;
       setDefaults E;; executeMiddlewares E;; writeResponse)
      (mkWorld e2
         (set_reply (Some reply.NewReply) (set_Res (Some addr) (set_Req (Some addr) c0)))
         r1 w [])
    = (Return tt, W') /\
    http.calls (h_w (heap W'))
      = http.calls w ++ [http.WriteHeader 500; http.Write (recoveryBody E indexOutOfRange)]).
  { unfold defer_recover. do 2 step.
    erewrite bind_Return by (eapply setDefaults_eq; reflexivity).
    erewrite bind_Panic.
    2:{ unfold executeMiddlewares. rewrite Hchain. reflexivity. }
    erewrite handleRecovery_eq; [| reflexivity | reflexivity | reflexivity | exact Hclean].
    eexists. split; reflexivity. }
  destruct Hguard as (W' & Hguard & Hcalls).
  unfold defer.
  erewrite bind_Return by (eapply parseRequest_eq; eassumption).
  do 2 step. rewrite Hguard.
  destruct W' as [e' [c' r' w'] lg']. cbn [heap h_w] in Hcalls.
  cbn. rewrite Hclose. split; [reflexivity | exact Hcalls].
Qed.

Lemma ServeHTTP_empty_chain_answers_500_witness :
  fst (ServeHTTP emptyChainEnv emptyWriter getFoo newEngine) = Return tt /\
  http.calls (h_w (heap (snd (ServeHTTP emptyChainEnv emptyWriter getFoo newEngine))))
    = [http.WriteHeader 500; http.Write "Internal Server Error"].
Proof.
  apply (ServeHTTP_empty_chain_answers_500 emptyChainEnv emptyWriter getFoo newEngine
           (snd (sampleParse getFoo ahttp.zero)) eq_refl eq_refl).
  - split; [constructor | reflexivity].
  - intros h. reflexivity.
Defined.

(** ** redirectTrailingSlash, further *)

Lemma redirectPath_no_slash (p : string) :
  endsInSlash p = false -> redirectPath p = p +:+ "/".
Proof. intros H. unfold redirectPath. rewrite H, andb_false_r. reflexivity. Qed.

Lemma redirectPath_there_and_back (p : string) :
  p <> "" ->
  endsInSlash p = false \/
  (exists stem, p = stem +:+ "/" /\ stem <> "" /\ endsInSlash stem = false) ->
  redirectPath (redirectPath p) = p.
Proof.
  intros Hne [Hno | (stem & -> & Hstem & Hno)].
  - rewrite (redirectPath_no_slash p Hno). apply redirectPath_strip, Hne.
  - rewrite (redirectPath_strip stem Hstem). apply redirectPath_no_slash, Hno.
Qed.

Lemma redirectedTo_eq E W q raw p :
  Req (h_c (heap W)) = Some q ->
  ahttp.Raw (h_r (heap W)) = Some raw ->
  Res (h_c (heap W)) = Some p ->
  redirectedTo E W = Some (redirectPath (ahttp.Path (h_r (heap W)))).
Proof.
  intros Hreq Hraw Hres. unfold redirectedTo. rewrite (World_eta W).
  erewrite redirectTrailingSlash_eq by eassumption. reflexivity.
Qed.

(** X8. The rewrite that [redirectTrailingSlash] applies to [req.URL.Path]
    undoes itself: for a non-empty path without a trailing slash, or a path
    made of such a path and one slash, the helper run on a request whose
    parsed path is the path that a first run wrote into the URL writes the
    original path back.  (This is about the path the helper leaves in the
    URL; [http.Redirect] may clean the path before it sends the Location.) *)
Theorem redirectTrailingSlash_there_and_back (E : Env) (W1 W2 : World)
    (q1 q2 : ptr ahttp.Request) (raw1 raw2 : http.Request)
    (p1 p2 : ptr http.ResponseWriter) (t : string) :
  Req (h_c (heap W1)) = Some q1 ->
  ahttp.Raw (h_r (heap W1)) = Some raw1 ->
  Res (h_c (heap W1)) = Some p1 ->
  Req (h_c (heap W2)) = Some q2 ->
  ahttp.Raw (h_r (heap W2)) = Some raw2 ->
  Res (h_c (heap W2)) = Some p2 ->
  ahttp.Path (h_r (heap W1)) <> "" ->
  endsInSlash (ahttp.Path (h_r (heap W1))) = false \/
  (exists stem, ahttp.Path (h_r (heap W1)) = stem +:+ "/" /\ stem <> "" /\
                endsInSlash stem = false) ->
  redirectedTo E W1 = Some t ->
  ahttp.Path (h_r (heap W2)) = t ->
  redirectedTo E W2 = Some (ahttp.Path (h_r (heap W1))).
Proof.
  intros Hreq1 Hraw1 Hres1 Hreq2 Hraw2 Hres2 Hne Hshape Ht Hpath.
  rewrite (redirectedTo_eq E W1 q1 raw1 p1 Hreq1 Hraw1 Hres1) in Ht.
  injection Ht as <-.
  rewrite (redirectedTo_eq E W2 q2 raw2 p2 Hreq2 Hraw2 Hres2), Hpath.
  rewrite redirectPath_there_and_back by assumption. reflexivity.
Qed.

Lemma redirectTrailingSlash_there_and_back_witness :
  redirectedTo devEnv (requestFor "GET" "/foo") = Some "/foo/" /\
  redirectedTo devEnv (requestFor "GET" "/foo/") = Some "/foo".
Proof.
  split; [reflexivity|].
  apply (redirectTrailingSlash_there_and_back devEnv
           (requestFor "GET" "/foo") (requestFor "GET" "/foo/") addr addr
           {| http.Method := "GET";
              http.URL := {| url.Path := "/foo"; url.RawQuery := "" |} |}
           {| http.Method := "GET";
              http.URL := {| url.Path := "/foo/"; url.RawQuery := "" |} |}
           addr addr "/foo/" eq_refl eq_refl eq_refl eq_refl eq_refl eq_refl);
    [discriminate | left; reflexivity | reflexivity | reflexivity].
Defined.

(** X9. How [redirectTrailingSlash] fails.  Without a request view or
    without a raw request it panics on the nil pointer before anything is
    changed.  Without a writer it panics as well, with nothing put on the
    wire, but only after the path of the raw request's URL has been
    rewritten: that change stays.  In no case does it touch the query of the
    URL or the path of the parsed view. *)
Theorem redirectTrailingSlash_failures (E : Env) (W : World) :
  (Req (h_c (heap W)) = None ->
   redirectTrailingSlash E W = (Panic nilDereference, W)) /\
  (forall q, Req (h_c (heap W)) = Some q -> ahttp.Raw (h_r (heap W)) = None ->
   redirectTrailingSlash E W = (Panic nilDereference, W)) /\
  (forall q raw,
     Req (h_c (heap W)) = Some q -> ahttp.Raw (h_r (heap W)) = Some raw ->
     Res (h_c (heap W)) = None ->
     fst (redirectTrailingSlash E W) = Panic nilDereference /\
     h_w (heap (snd (redirectTrailingSlash E W))) = h_w (heap W) /\
     ahttp.Raw (h_r (heap (snd (redirectTrailingSlash E W))))
       = Some {| http.Method := http.Method raw;
                 http.URL :=
                   {| url.Path := redirectPath (ahttp.Path (h_r (heap W)));
                      url.RawQuery := url.RawQuery (http.URL raw) |} |} /\
     ahttp.Path (h_r (heap (snd (redirectTrailingSlash E W))))
       = ahttp.Path (h_r (heap W))).
Proof.
  rewrite (World_eta W). cbn [heap h_c h_r h_w]. split; [|split].
  - intros Hreq. unfold redirectTrailingSlash.
    erewrite bind_Panic; [reflexivity|].
    unfold Req_. cbn [heap h_c]. rewrite Hreq. reflexivity.
  - intros q Hreq Hraw. unfold redirectTrailingSlash.
    erewrite bind_Return by (eapply Req_eq; eassumption).
    rewrite Hraw. reflexivity.
  - intros q raw Hreq Hraw Hres. unfold redirectTrailingSlash.
    erewrite bind_Return by (eapply Req_eq; eassumption).
    rewrite Hraw. cbn [deref]. step. do 2 step.
    unfold Res_. cbn [heap h_c]. rewrite Hres. cbn [fst snd heap h_w h_r].
    unfold redirectPath, ahttp.set_Raw, http.set_URL, url.set_Path.
    cbn [ahttp.Raw ahttp.Path].
    destruct ((1 <? String.length (ahttp.Path (h_r (heap W))))%nat
              && endsInSlash (ahttp.Path (h_r (heap W)))); repeat split.
Qed.

Lemma redirectTrailingSlash_failures_witness :
  fst (redirectTrailingSlash devEnv (noWriter "GET" "/foo/")) = Panic nilDereference /\
  ahttp.Raw (h_r (heap (snd (redirectTrailingSlash devEnv (noWriter "GET" "/foo/")))))
    = Some {| http.Method := "GET";
              http.URL := {| url.Path := "/foo"; url.RawQuery := "page=2" |} |}.
Proof.
  destruct (redirectTrailingSlash_failures devEnv (noWriter "GET" "/foo/"))
    as (_ & _ & H).
  destruct (H addr
              {| http.Method := "GET";
                 http.URL := {| url.Path := "/foo/"; url.RawQuery := "page=2" |} |}
              eq_refl eq_refl eq_refl) as (Hpanic & _ & Hraw & _).
  split; [exact Hpanic | exact Hraw].
Defined.

(** ** handleNotFound, further *)

Lemma Call_unfit m args h :
  accepts m args = false -> exists v, Call m args h = (Panic v, h).
Proof.
  intros H. unfold Call, accepts in *.
  destruct (length args <? length (ins m))%nat eqn:Hfew; [eexists; reflexivity|].
  destruct (variadic m) as [elem|].
  - apply Nat.ltb_ge, Nat.leb_le in Hfew. rewrite Hfew in H. cbn [andb] in H.
    destruct (allAssignable _ (ins m)); [|eexists; reflexivity].
    cbn [andb] in H. rewrite H. eexists. reflexivity.
  - destruct (length (ins m) <? length args)%nat; [eexists; reflexivity|].
    rewrite H. eexists. reflexivity.
Qed.

Lemma allAssignable_length args ts :
  allAssignable args ts = true -> length args = length ts.
Proof.
  revert ts. induction args as [|v args IH]; intros [|t ts] H; try discriminate.
  - reflexivity.
  - cbn [allAssignable] in H. apply andb_prop in H as [_ H].
    cbn [length]. f_equal. apply IH, H.
Qed.

Lemma Call_fit m args h : accepts m args = true -> Call m args h = Func m args h.
Proof.
  intros H. unfold Call, accepts in *.
  destruct (variadic m) as [elem|].
  - apply andb_prop in H as [H Hrest]. apply andb_prop in H as [Hlen Hfixed].
    apply Nat.leb_le, Nat.ltb_ge in Hlen. rewrite Hlen, Hfixed, Hrest. reflexivity.
  - rewrite (allAssignable_length _ _ H), Nat.ltb_irrefl, H. reflexivity.
Qed.

(** X10. Only the target-not-found error stops [handleNotFound]: after any
    other outcome of [setTarget], another error included, it goes on to look
    the action up by reflection.  If [setTarget] left no action, that is a
    nil dereference; if it left an action and no target, the lookup on the
    zero [reflect.Value] panics.  In both cases the context is as [setTarget]
    left it and the writer is untouched: no 404 is produced. *)
Theorem handleNotFound_unresolved_target_panics (E : Env) (W : World)
    (domain : router.Domain) (route : router.Route) (isStatic : bool) :
  router.NotFoundRoute domain = Some route ->
  is_errTargetNotFound (snd (setTarget E route (h_c (heap W)))) = false ->
  (action (fst (setTarget E route (h_c (heap W)))) = None ->
   fst (handleNotFound E domain isStatic W) = Panic nilDereference /\
   heap (snd (handleNotFound E domain isStatic W))
     = set_c (fst (setTarget E route (h_c (heap W)))) (heap W)) /\
  (forall act,
     action (fst (setTarget E route (h_c (heap W)))) = Some act ->
     target (fst (setTarget E route (h_c (heap W)))) = None ->
     fst (handleNotFound E domain isStatic W) = Panic zeroValueMethodByName /\
     heap (snd (handleNotFound E domain isStatic W))
       = set_c (fst (setTarget E route (h_c (heap W)))) (heap W)).
Proof.
  intros Hroute Herr. rewrite (World_eta W). cbn [heap h_c].
  split.
  - intros Hact. unfold handleNotFound. rewrite Hroute.
    erewrite bind_Return by apply c_setTarget_eq.
    rewrite Herr. cbn [negb].
    erewrite bind_Return by reflexivity. cbn [heap h_c].
    rewrite Hact. split; reflexivity.
  - intros act Hact Htarget. unfold handleNotFound. rewrite Hroute.
    erewrite bind_Return by apply c_setTarget_eq.
    rewrite Herr. cbn [negb].
    erewrite bind_Return by reflexivity. cbn [heap h_c].
    rewrite Hact. cbn [deref]. step. rewrite Htarget. split; reflexivity.
Qed.

Lemma handleNotFound_unresolved_target_panics_witness :
  fst (handleNotFound brokenTargetEnv siteDomain false (requestFor "GET" "/nowhere"))
    = Panic nilDereference /\
  reply (h_c (heap (snd (handleNotFound brokenTargetEnv siteDomain false
                           (requestFor "GET" "/nowhere")))))
    = Some reply.NewReply.
Proof.
  destruct (handleNotFound_unresolved_target_panics brokenTargetEnv
              (requestFor "GET" "/nowhere") siteDomain
              {| router.Controller := "Site"; router.Action := "NotFound" |} false
              eq_refl eq_refl) as (H & _).
  destruct (H eq_refl) as (Hpanic & Hheap).
  split; [exact Hpanic | rewrite Hheap; reflexivity].
Defined.

(** X11. The custom not-found action is found by its name alone.  When
    the method of that name cannot take the one bool that [handleNotFound]
    passes (it has no variadic parameter and not exactly one parameter to
    which a bool can be assigned; or it has a variadic parameter and more
    than one parameter before it, or a parameter that does not take a bool),
    [handleNotFound] still calls it: the reflective call panics, the body of
    the action is not run and the context is as [setTarget] left it, without
    a 404.  When the method can take the bool, its body is what runs. *)
Theorem handleNotFound_unfit_action_panics (E : Env) (W : World)
    (domain : router.Domain) (route : router.Route) (isStatic : bool)
    (act : MethodInfo) (t : Target) (m : Method) :
  router.NotFoundRoute domain = Some route ->
  is_errTargetNotFound (snd (setTarget E route (h_c (heap W)))) = false ->
  action (fst (setTarget E route (h_c (heap W)))) = Some act ->
  target (fst (setTarget E route (h_c (heap W)))) = Some t ->
  MethodByName E t (Name act) = Some m ->
  (accepts m [VBool isStatic] = false ->
   (exists v, fst (handleNotFound E domain isStatic W) = Panic v) /\
   heap (snd (handleNotFound E domain isStatic W))
     = set_c (fst (setTarget E route (h_c (heap W)))) (heap W)) /\
  (accepts m [VBool isStatic] = true ->
   fst (handleNotFound E domain isStatic W)
     = fst (Func m [VBool isStatic]
              (set_c (fst (setTarget E route (h_c (heap W)))) (heap W))) /\
   heap (snd (handleNotFound E domain isStatic W))
     = snd (Func m [VBool isStatic]
              (set_c (fst (setTarget E route (h_c (heap W)))) (heap W)))).
Proof.
  intros Hroute Herr Hact Htarget Hmethod.
  rewrite (World_eta W). cbn [heap h_c] in *.
  erewrite handleNotFound_resolved by eassumption.
  rewrite Hmethod. unfold user. cbn [heap]. split.
  - intros Hunfit.
    match goal with |- context [Call m ?args ?h] =>
      destruct (Call_unfit m args h Hunfit) as [v Hcall]; rewrite Hcall end.
    split; [exists v; reflexivity | reflexivity].
  - intros Hfit. rewrite Call_fit by exact Hfit.
    unfold set_c. cbn [h_r h_w].
    destruct (Func m _ _). split; reflexivity.
Qed.

Lemma handleNotFound_unfit_action_panics_witness :
  ((exists v, fst (handleNotFound noArgEnv siteDomain true (requestFor "GET" "/nowhere"))
              = Panic v) /\
   reply (h_c (heap (snd (handleNotFound noArgEnv siteDomain true
                            (requestFor "GET" "/nowhere")))))
     = Some reply.NewReply) /\
  heap (snd (handleNotFound variadicEnv siteDomain true (requestFor "GET" "/nowhere")))
    = snd (customNotFound [VBool true]
             (set_c (fst (resolveAll
                            {| router.Controller := "Site"; router.Action := "NotFound" |}
                            (h_c (heap (requestFor "GET" "/nowhere")))))
                (heap (requestFor "GET" "/nowhere")))).
Proof.
  split.
  - destruct (handleNotFound_unfit_action_panics noArgEnv (requestFor "GET" "/nowhere")
                siteDomain {| router.Controller := "Site"; router.Action := "NotFound" |}
                true {| Name := "NotFound" |} "Site"
                {| ins := []; variadic := None; Func := customNotFound |}
                eq_refl eq_refl eq_refl eq_refl eq_refl) as [Hunfit _].
    destruct (Hunfit eq_refl) as (Hpanic & Hheap).
    split; [exact Hpanic | rewrite Hheap; reflexivity].
  - destruct (handleNotFound_unfit_action_panics variadicEnv (requestFor "GET" "/nowhere")
                siteDomain {| router.Controller := "Site"; router.Action := "NotFound" |}
                true {| Name := "NotFound" |} "Site"
                {| ins := [TBool]; variadic := Some (TOther "string");
                   Func := customNotFound |}
                eq_refl eq_refl eq_refl eq_refl eq_refl) as [_ Hfit].
    destruct (Hfit eq_refl) as (_ & Hheap). exact Hheap.
Defined.

(** * Properties of aah.go *)

(** ** AllAppProfiles *)

Lemma AllAppProfiles_loop (acc keys : list string) :
  foldl (fun profiles v =>
           if decide (v = "default") then profiles else profiles ++ [v]) acc keys
  = acc ++ filter (fun v => v <> "default") keys.
Proof.
  revert acc. induction keys as [|v keys IH]; intros acc.
  - rewrite app_nil_r. reflexivity.
  - cbn [foldl]. rewrite IH. destruct (decide (v = "default")) as [->|Hne].
    + rewrite filter_cons_False by (intros H; apply H; reflexivity). reflexivity.
    + rewrite filter_cons_True by exact Hne. rewrite <- app_assoc. reflexivity.
Qed.

(** X12. [AllAppProfiles] returns the keys under "env" in their order,
    without the entry "default": "default" is never a profile name, and
    every other key is a profile name exactly when it is a key. *)
Theorem AllAppProfiles_drops_default (keys : list string) :
  aah.AllAppProfiles keys = filter (fun v => v <> "default") keys /\
  ("default" ∉ aah.AllAppProfiles keys) /\
  (forall v, v <> "default" -> (v ∈ aah.AllAppProfiles keys <-> v ∈ keys)).
Proof.
  assert (Heq : aah.AllAppProfiles keys = filter (fun v => v <> "default") keys).
  { unfold aah.AllAppProfiles. rewrite AllAppProfiles_loop. reflexivity. }
  rewrite Heq. split; [reflexivity|]. split.
  - intros Hin. apply list_elem_of_filter in Hin as [Hne _]. apply Hne. reflexivity.
  - intros v Hne. rewrite list_elem_of_filter. tauto.
Qed.

(** ** AppBaseDir *)

Lemma length_append (s t : string) :
  String.length (s +:+ t) = (String.length s + String.length t)%nat.
Proof.
  induction s as [|a s IH]; [reflexivity|].
  rewrite append_cons. cbn [String.length]. rewrite IH. reflexivity.
Qed.

Lemma substring_all (t : string) : String.substring 0 (String.length t) t = t.
Proof.
  induction t as [|a t IH]; [reflexivity|].
  cbn [String.length String.substring]. rewrite IH. reflexivity.
Qed.

Lemma substring_append_l (s t : string) :
  String.substring 0 (String.length s) (s +:+ t) = s.
Proof.
  induction s as [|a s IH].
  - rewrite append_empty_l. destruct t; reflexivity.
  - rewrite append_cons. cbn [String.length String.substring]. rewrite IH. reflexivity.
Qed.

Lemma substring_append_r (s t : string) (n : nat) :
  String.substring (String.length s) n (s +:+ t) = String.substring 0 n t.
Proof.
  induction s as [|a s IH]; [reflexivity|].
  rewrite append_cons. cbn [String.length String.substring]. exact IH.
Qed.

Lemma HasSuffix_append (s suffix : string) :
  strings.HasSuffix (s +:+ suffix) suffix = true /\
  String.substring 0 (String.length (s +:+ suffix) - String.length suffix) (s +:+ suffix)
  = s.
Proof.
  unfold strings.HasSuffix. rewrite length_append.
  replace (String.length s + String.length suffix - String.length suffix)%nat
    with (String.length s) by lia.
  rewrite substring_append_r, substring_all, String.eqb_refl, substring_append_l.
  split; [|reflexivity].
  rewrite andb_true_r. apply Nat.leb_le. lia.
Qed.

(** X13. [AppBaseDir] of a packaged application is the working directory
    with one trailing "/bin" removed (one only: a directory above that is
    itself called bin stays), or the working directory itself when it does
    not end in "/bin"; the result is stored in [appBaseDir].  When the
    application is not packaged the stored directory is returned, the
    working directory plays no part and nothing is written. *)
Theorem AppBaseDir_strips_bin (wd : string) (a : aah.App) :
  (aah.appIsPackaged a = true ->
   forall base, wd = base +:+ "/bin" ->
     fst (aah.AppBaseDir wd a) = base /\
     aah.appBaseDir (snd (aah.AppBaseDir wd a)) = base) /\
  (aah.appIsPackaged a = true -> strings.HasSuffix wd "/bin" = false ->
   fst (aah.AppBaseDir wd a) = wd /\
   aah.appBaseDir (snd (aah.AppBaseDir wd a)) = wd) /\
  (aah.appIsPackaged a = false -> aah.AppBaseDir wd a = (aah.appBaseDir a, a)).
Proof.
  unfold aah.AppBaseDir. split; [|split].
  - intros -> base ->.
    destruct (HasSuffix_append base "/bin") as [Hsuf Hsub].
    rewrite Hsuf. cbn [String.length] in Hsub. rewrite Hsub. split; reflexivity.
  - intros -> ->. split; reflexivity.
  - intros ->. reflexivity.
Qed.

Lemma AppBaseDir_strips_bin_witness :
  fst (aah.AppBaseDir "/srv/bin/bin" (aah.sampleApp ∅)) = "/srv/bin" /\
  fst (aah.AppBaseDir "/srv/binary" (aah.sampleApp ∅)) = "/srv/binary".
Proof.
  destruct (AppBaseDir_strips_bin "/srv/bin/bin" (aah.sampleApp ∅)) as (H1 & _ & _).
  destruct (AppBaseDir_strips_bin "/srv/binary" (aah.sampleApp ∅)) as (_ & H2 & _).
  split.
  - apply (H1 eq_refl "/srv/bin" eq_refl).
  - apply (H2 eq_refl eq_refl).
Defined.

(** ** initAppVariables *)

Lemma SetAppProfile_ok (S : aah.Sys) (a : aah.App) :
  fst (aah.SetProfile S (aah.appProfilePrefix +:+ aah.activeProfile a) (aah.config a)) = None ->
  aah.SetAppProfile S (aah.activeProfile a)
    (aah.set_appProfile (aah.activeProfile a)
       (aah.set_appName
          (StringDefault (aah.config a) "name" (aah.Base S (aah.appBaseDir a))) a))
  = (None,
     aah.set_appProfile (aah.activeProfile a)
       (aah.set_config (aah.profiledConfig S a)
          (aah.set_appProfile (aah.activeProfile a)
             (aah.set_appName
                (StringDefault (aah.config a) "name" (aah.Base S (aah.appBaseDir a))) a)))).
Proof.
  intros Hok. unfold aah.SetAppProfile, aah.profiledConfig. cbn [aah.config aah.set_appProfile aah.set_appName].
  destruct (aah.SetProfile S _ (aah.config a)) as [err cfg]. cbn [fst snd] in *.
  subst err. reflexivity.
Qed.

(** X14. Once the active profile is set, [initAppVariables] rejects the
    timeouts with the time-unit error exactly when neither the read nor the
    write timeout ends in "s" or "m": one value with such a suffix is enough
    to pass the check, whatever the other value is. *)
Theorem initAppVariables_time_unit_check (S : aah.Sys) (a : aah.App) :
  fst (aah.SetProfile S (aah.appProfilePrefix +:+ aah.activeProfile a) (aah.config a)) = None ->
  (exists a', aah.initAppVariables S a = aah.Returned (Some aah.timeUnitError) a') <->
  (aah.hasTimeUnit (aah.readTimeout S a) = false /\
   aah.hasTimeUnit (aah.writeTimeout S a) = false).
Proof.
  intros Hok. unfold aah.initAppVariables. unfold aah.AppProfile.
  cbn [aah.config aah.set_appName aah.set_appProfile aah.appProfile aah.appBaseDir].
  fold (aah.activeProfile a).
  rewrite (SetAppProfile_ok S a Hok).
  cbn [aah.config aah.set_appProfile aah.set_config].
  fold (aah.readTimeout S a). fold (aah.writeTimeout S a).
  destruct (aah.hasTimeUnit (aah.readTimeout S a)) eqn:Hr;
    destruct (aah.hasTimeUnit (aah.writeTimeout S a)) eqn:Hw; cbn [negb andb].
  4:{ split; [intros _; split; reflexivity | intros _; eexists; reflexivity]. }
  all: split; [|intros [? ?]; discriminate].
  all: intros [a' H]; exfalso; revert H.
  all: destruct (aah.ParseDuration S (aah.readTimeout S a)) as [rd [e|]];
         [intros H; injection H as H _; discriminate|].
  all: destruct (aah.ParseDuration S (aah.writeTimeout S a)) as [wr [e|]];
         [intros H; injection H as H _; discriminate|].
  all: destruct (aah.StrToBytes S _) as [hb [e|]]; [intros H; discriminate|].
  all: match goal with |- context [if ?b then _ else _] => destruct b end;
         [intros H; discriminate|].
  all: destruct (aah.StrToBytes S _) as [mm [e|]]; intros H; discriminate.
Qed.

Lemma initAppVariables_time_unit_check_witness :
  (exists a', aah.initAppVariables aah.sampleSys
                (aah.sampleApp {[ "server.timeout.read" := "1h";
                                  "server.timeout.write" := "2h" ]})
              = aah.Returned (Some aah.timeUnitError) a') /\
  ~ (exists a', aah.initAppVariables aah.sampleSys
                  (aah.sampleApp {[ "server.timeout.read" := "90x";
                                    "server.timeout.write" := "90s" ]})
                = aah.Returned (Some aah.timeUnitError) a').
Proof.
  split.
  - apply (initAppVariables_time_unit_check aah.sampleSys
             (aah.sampleApp {[ "server.timeout.read" := "1h";
                               "server.timeout.write" := "2h" ]}) eq_refl).
    split; reflexivity.
  - intros H.
    apply (initAppVariables_time_unit_check aah.sampleSys
             (aah.sampleApp {[ "server.timeout.read" := "90x";
                               "server.timeout.write" := "90s" ]}) eq_refl) in H.
    destruct H as [_ H]. discriminate H.
Defined.

(** X15. When [initAppVariables] returns nil, the variables it leaves are
    consistent: the profile is the active one, both timeouts and both sizes
    were parsed without error and are the values stored, at least one of the
    timeouts ends in "s" or "m", and if SSL is enabled neither the
    certificate nor the key is empty. *)
Theorem initAppVariables_success (S : aah.Sys) (a a' : aah.App) :
  aah.initAppVariables S a = aah.Returned None a' ->
  aah.appProfile a' = aah.activeProfile a /\
  aah.config a' = aah.profiledConfig S a /\
  (aah.hasTimeUnit (aah.readTimeout S a) = true \/
   aah.hasTimeUnit (aah.writeTimeout S a) = true) /\
  aah.ParseDuration S (aah.readTimeout S a) = (aah.appHTTPReadTimeout a', None) /\
  aah.ParseDuration S (aah.writeTimeout S a) = (aah.appHTTPWriteTimeout a', None) /\
  aah.StrToBytes S (StringDefault (aah.config a') "server.max_header_bytes" "1mb")
    = (aah.appHTTPMaxHdrBytes a', None) /\
  aah.StrToBytes S (StringDefault (aah.config a') "request.multipart_size" "32mb")
    = (aah.appMultipartMaxMemory a', None) /\
  aah.appSSLCert a' = StringDefault (aah.config a') "server.ssl.cert" "" /\
  aah.appSSLKey a' = StringDefault (aah.config a') "server.ssl.key" "" /\
  (aah.IsSSLEnabled S a' = true ->
   aah.IsStrEmpty S (aah.appSSLCert a') = false /\
   aah.IsStrEmpty S (aah.appSSLKey a') = false).
Proof.
  unfold aah.initAppVariables, aah.AppProfile, aah.SetAppProfile.
  cbn [aah.config aah.set_appName aah.set_appProfile aah.appProfile aah.appBaseDir].
  unfold aah.readTimeout, aah.writeTimeout, aah.profiledConfig.
  fold (aah.activeProfile a).
  destruct (aah.SetProfile S _ (aah.config a)) as [[e|] cfg]; [discriminate|].
  cbn [snd aah.config aah.set_appProfile aah.set_config].
  destruct (aah.hasTimeUnit (StringDefault cfg "server.timeout.read" "90s")) eqn:Hr;
    destruct (aah.hasTimeUnit (StringDefault cfg "server.timeout.write" "90s")) eqn:Hw;
    cbn [negb andb]; try discriminate.
  all: destruct (aah.ParseDuration S (StringDefault cfg "server.timeout.read" "90s"))
         as [rd [e|]]; [discriminate|].
  all: destruct (aah.ParseDuration S (StringDefault cfg "server.timeout.write" "90s"))
         as [wr [e|]]; [discriminate|].
  all: destruct (aah.StrToBytes S (StringDefault cfg "server.max_header_bytes" "1mb"))
         as [hb [e|]] eqn:Hhb; [discriminate|].
  all: unfold aah.IsSSLEnabled;
       cbn [aah.config aah.appSSLCert aah.appSSLKey aah.set_appSSL
            aah.set_appHTTPMaxHdrBytes aah.set_appHTTPWriteTimeout
            aah.set_appHTTPReadTimeout aah.set_appProfile aah.set_config
            aah.set_appName].
  all: destruct (aah.BoolDefault S cfg "server.ssl.enable" false) eqn:Hssl;
       destruct (aah.IsStrEmpty S (StringDefault cfg "server.ssl.cert" "")) eqn:Hcert;
       destruct (aah.IsStrEmpty S (StringDefault cfg "server.ssl.key" "")) eqn:Hkey;
       cbn [andb orb]; try discriminate.
  all: destruct (aah.StrToBytes S (StringDefault cfg "request.multipart_size" "32mb"))
         as [mm [e|]] eqn:Hmm; [discriminate|].
  all: intros [= <-]; cbn.
  all: rewrite ?Hssl, ?Hcert, ?Hkey, ?Hmm, ?Hhb.
  all: repeat split; auto; discriminate.
Qed.

Lemma initAppVariables_success_witness :
  exists a',
    aah.initAppVariables aah.sampleSys (aah.sampleApp ∅) = aah.Returned None a' /\
    aah.appProfile a' = "dev" /\
    aah.appHTTPReadTimeout a' = 90%Z /\
    aah.appMultipartMaxMemory a' = 1048576%Z.
Proof.
  eexists. split; [reflexivity|].
  edestruct (initAppVariables_success aah.sampleSys (aah.sampleApp ∅))
    as (Hp & _ & _ & Hr & _ & _ & Hm & _); [reflexivity|].
  split; [exact Hp|].
  split; [exact (f_equal fst (eq_sym Hr))|].
  exact (f_equal fst (eq_sym Hm)).
Defined.
